(** * Palanaeum: the HTTP view layer ([palanaeum/views.py])

    A shallow embedding of the views of the Palanaeum archive and of the
    parts of Python and Django they call, followed by the properties of
    the views.  Python integers are [Z], strings are byte strings
    ([string]), sequences are [list]s, tables keyed by primary key are
    [gmap]s, and raising is an explicit [result]. *)

From Stdlib Require Import ZArith String Ascii DecimalString.
From stdpp Require Import base list sorting gmap strings.

Local Open Scope string_scope.
Local Open Scope list_scope.
Local Open Scope Z_scope.

(** ** Python: exceptions, builtins and sequence operations *)

Module Py.

(** The exceptions the modelled code can raise. *)
Inductive exn :=
  | PageNotAnInteger
  | EmptyPage
  | ZeroDivisionError
  | Http404
  | PermissionDenied
  | DoesNotExist.

#[global] Instance exn_eq_dec : EqDecision exn.
Proof. solve_decision. Defined.

Inductive result (A : Type) :=
  | Ok (a : A)
  | Raise (e : exn).
Arguments Ok {A} a.
Arguments Raise {A} e.

#[global] Instance result_ret : MRet result := fun A a => Ok a.
#[global] Instance result_bind : MBind result := fun A B k r =>
  match r with
  | Ok a => k a
  | Raise e => Raise e
  end.

(** [try: body except e1: h1 except e2: h2], the shape used in [events]. *)
Definition try_except2 {A} (body : result A)
    (e1 : exn) (h1 : result A) (e2 : exn) (h2 : result A) : result A :=
  match body with
  | Ok a => Ok a
  | Raise e =>
      if decide (e = e1) then h1
      else if decide (e = e2) then h2
      else Raise e
  end.

(** *** [int(str)]

    Base-10 parsing of an ASCII text (Python 3.6 or later): surrounding
    white space (tab, line feed, vertical tab, form feed, carriage
    return, space) is dropped, one sign is allowed, and the digits may
    be grouped by single underscores. *)

Definition is_space (c : ascii) : bool :=
  let n := nat_of_ascii c in
  ((9 <=? n)%nat && (n <=? 13)%nat) || (n =? 32)%nat.

Definition is_digit (c : ascii) : bool :=
  let n := nat_of_ascii c in (48 <=? n)%nat && (n <=? 57)%nat.

Definition digit_value (c : ascii) : Z := Z.of_nat (nat_of_ascii c) - 48.

Fixpoint lstrip (s : string) : string :=
  match s with
  | String c r => if is_space c then lstrip r else s
  | EmptyString => s
  end.

Fixpoint all_space (s : string) : bool :=
  match s with
  | String c r => is_space c && all_space r
  | EmptyString => true
  end.

Fixpoint parse_digits (acc : Z) (after_digit : bool) (s : string) : option Z :=
  match s with
  | EmptyString => if after_digit then Some acc else None
  | String c r =>
      if is_digit c then parse_digits (10 * acc + digit_value c) true r
      else if after_digit then
        if Ascii.eqb c "_" then parse_digits acc false r
        else if all_space s then Some acc
        else None
      else None
  end.

Definition int_ascii (s : string) : option Z :=
  match lstrip s with
  | String "+" r => parse_digits 0 false r
  | String "-" r => Z.opp <$> parse_digits 0 false r
  | r => parse_digits 0 false r
  end.

Fixpoint is_ascii (s : string) : bool :=
  match s with
  | String c r => (nat_of_ascii c <? 128)%nat && is_ascii r
  | EmptyString => true
  end.

(** The builtin [int] on a text (the UTF-8 bytes of a [str]).  On a text
    outside ASCII it also reads the decimal digits and the white space
    of Unicode, by the tables of the interpreter, and from Python 3.11
    on it refuses more than 4300 digits; so the builtin is a parameter,
    known on the ASCII texts of at most 4300 characters. *)
Class Python := {
  int : string → option Z;
  int_ascii_text s :
    is_ascii s = true → (String.length s ≤ 4300)%nat → int s = int_ascii s;
}.

(** [str(n)] for an integer. *)
Definition str (n : Z) : string := NilZero.string_of_int (Z.to_int n).

(** *** Slices [l[lo:hi]] with integer bounds: a negative bound counts
    from the end, and both are clamped to the sequence. *)
Definition slice_index (len i : Z) : nat :=
  Z.to_nat (Z.min len (if i <? 0 then Z.max 0 (i + len) else i)).

Definition slice {A} (l : list A) (lo hi : Z) : list A :=
  let len := Z.of_nat (length l) in
  let b := slice_index len lo in
  let e := slice_index len hi in
  take (e - b)%nat (drop b l).

(** *** [sorted(l, key=..., reverse=...)]: the stable sort.

    Elements with equal keys keep their relative order, also under
    [reverse=True].  [insert_sorted] places an element in front of an
    already sorted suffix, before the first element it does not follow. *)
Definition key_before (reverse : bool) (a b : Z) : bool :=
  if reverse then b <? a else a <? b.

Fixpoint insert_sorted {A} (key : A → Z) (reverse : bool) (x : A) (l : list A) : list A :=
  match l with
  | [] => [x]
  | y :: l' =>
      if key_before reverse (key y) (key x)
      then y :: insert_sorted key reverse x l'
      else x :: l
  end.

Definition sorted {A} (key : A → Z) (reverse : bool) (l : list A) : list A :=
  foldr (insert_sorted key reverse) [] l.

(** [sep.join(parts)] *)
Fixpoint join (sep : string) (parts : list string) : string :=
  match parts with
  | [] => ""
  | [p] => p
  | p :: ps => p +:+ sep +:+ join sep ps
  end.

(** [any(l)] over the truth values of the elements. *)
Definition any {A} (truth : A → bool) (l : list A) : bool := existsb truth l.

(** [s.startswith(q)] and [q in s]. *)
Definition startswith (s q : string) : bool := String.prefix q s.

Fixpoint contains (s q : string) : bool :=
  String.prefix q s ||
  match s with
  | String _ r => contains r q
  | EmptyString => false
  end.

End Py.

(** ** Django: requests, responses, query sets and the paginator *)

Module Django.
Import Py.

(** [request.GET]: a multi-valued dictionary; [get] answers with the last
    value given for the key. *)
Abbreviation QueryDict := (list (string * string)).

Definition qd_get (q : QueryDict) (key default : string) : string :=
  match last (filter (fun kv => kv.1 = key) q) with
  | Some kv => kv.2
  | None => default
  end.

Record HttpRequest := {
  method : string;
  GET : QueryDict;
  session : list (string * Z);
  user : option Z;
}.

(** What a view hands back, and what the handler makes of an exception
    that leaves the view. *)
Inductive HttpResponse (C : Type) :=
  | Rendered (template : string) (context : C)
  | Redirect (url : string)
  | Json (body : C)
  | NotFound
  | Forbidden
  | ServerError (e : exn).
Arguments Rendered {C} template context.
Arguments Redirect {C} url.
Arguments Json {C} body.
Arguments NotFound {C}.
Arguments Forbidden {C}.
Arguments ServerError {C} e.

Definition respond {C} (r : result (HttpResponse C)) : HttpResponse C :=
  match r with
  | Ok resp => resp
  | Raise Http404 => NotFound
  | Raise PermissionDenied => Forbidden
  | Raise e => ServerError e
  end.

(** [get_object_or_404(Model, pk=...)] over a table keyed by primary key. *)
Definition get_object_or_404 {A} (table : gmap Z A) (pk : Z) : result A :=
  match table !! pk with
  | Some row => Ok row
  | None => Raise Http404
  end.

(** *** Query sets: immutable descriptions of a query.  [order_by] and
    slicing give a new query set and leave the receiver as it was. *)
Record QuerySet (A : Type) := {
  qs_rows : list A;
  qs_ordering : option (list string);
  qs_stop : option Z;
}.
Arguments qs_rows {A} _.
Arguments qs_ordering {A} _.
Arguments qs_stop {A} _.

Definition order_by {A} (q : QuerySet A) (fields : list string) : QuerySet A :=
  {| qs_rows := qs_rows q; qs_ordering := Some fields; qs_stop := qs_stop q |}.

Definition qs_filter {A} (q : QuerySet A) (p : A → bool) : QuerySet A :=
  {| qs_rows := List.filter p (qs_rows q); qs_ordering := qs_ordering q;
     qs_stop := qs_stop q |}.

(** [q[:n]] *)
Definition qs_upto {A} (q : QuerySet A) (n : Z) : QuerySet A :=
  {| qs_rows := qs_rows q; qs_ordering := qs_ordering q; qs_stop := Some n |}.

(** The database's [ORDER BY] for a row type. *)
Class Ordering (A : Type) := sql_order_by : list string → list A → list A.

(** Running the query: order, then limit. *)
Definition fetch {A} `{Ordering A} (q : QuerySet A) : list A :=
  let rows := match qs_ordering q with
              | Some fields => sql_order_by fields (qs_rows q)
              | None => qs_rows q
              end in
  match qs_stop q with
  | Some n => take (Z.to_nat n) rows
  | None => rows
  end.

Definition qs_count {A} `{Ordering A} (q : QuerySet A) : Z :=
  Z.of_nat (length (fetch q)).

(** *** [django.core.paginator] *)
Record Paginator (A : Type) := {
  object_list : list A;
  per_page : Z;
  orphans : Z;
  allow_empty_first_page : bool;
}.
Arguments object_list {A} _.
Arguments per_page {A} _.
Arguments orphans {A} _.
Arguments allow_empty_first_page {A} _.

(** [Paginator(object_list, per_page, orphans=orphans)] *)
Definition new_paginator {A} (l : list A) (per_page orphans : Z) : Paginator A :=
  {| object_list := l; per_page := per_page; orphans := orphans;
     allow_empty_first_page := true |}.

Record Page (A : Type) := {
  page_object_list : list A;
  number : Z;
  paginator : Paginator A;
}.
Arguments page_object_list {A} _.
Arguments number {A} _.
Arguments paginator {A} _.

Definition count {A} (p : Paginator A) : Z := Z.of_nat (length (object_list p)).

(** [ceil(a / b)] for integers, [b] not zero. *)
Definition ceil_div (a b : Z) : Z := - ((- a) `div` b).

Definition num_pages {A} (p : Paginator A) : result Z :=
  if (count p =? 0) && negb (allow_empty_first_page p) then Ok 0
  else
    let hits := Z.max 1 (count p - orphans p) in
    if per_page p =? 0 then Raise ZeroDivisionError
    else Ok (ceil_div hits (per_page p)).

(** A page number as it reaches the paginator: the text of the request
    parameter, or an integer of the program. *)
Inductive page_arg :=
  | PageStr (s : string)
  | PageInt (n : Z).

Definition validate_number `{Python} {A} (p : Paginator A) (number : page_arg) : result Z :=
  number ← match number with
           | PageInt n => Ok n
           | PageStr s => match int s with
                          | Some n => Ok n
                          | None => Raise PageNotAnInteger
                          end
           end;
  if number <? 1 then Raise EmptyPage
  else
    pages ← num_pages p;
    if number >? pages then
      if (number =? 1) && allow_empty_first_page p then Ok number
      else Raise EmptyPage
    else Ok number.

Definition page `{Python} {A} (p : Paginator A) (number : page_arg) : result (Page A) :=
  number ← validate_number p number;
  let bottom := (number - 1) * per_page p in
  let top := bottom + per_page p in
  let top := if top + orphans p >=? count p then count p else top in
  Ok {| page_object_list := slice (object_list p) bottom top;
        number := number; paginator := p |}.

End Django.

(** ** The models and the other modules the views import

    [palanaeum.models], [palanaeum.forms], [palanaeum.configuration],
    [palanaeum.utils] and the URL configuration are collaborators of the
    views: the rows are records, and what the views call on them is the
    interface [Site]. *)

Module Models.
Import Py Django.

(** An aware date and time: the instant, in microseconds since the epoch. *)
Definition datetime := Z.

Inductive ReviewState :=
  | REVIEW_APPROVED
  | REVIEW_PENDING
  | REVIEW_OTHER.

Record Event := {
  event_pk : Z;
  event_name : string;
  review_state : ReviewState;
}.

Record Entry := {
  entry_pk : Z;
  event_id : Z;
  order : Z;
}.

Record Tag := { tag_name : string }.

(** A tag row after [annotate(entry_count=..., event_count=...)]. *)
Record AnnotatedTag := {
  name : string;
  entry_count : Z;
  event_count : Z;
}.

Inductive SourceKind := AudioSource | ImageSource.

Record Source := {
  source_kind : SourceKind;
  source_pk : Z;
  created_date : option datetime;
}.

Record RelatedSite := { site_name : string; site_url : string }.

#[global] Instance ReviewState_eq_dec : EqDecision ReviewState.
Proof. solve_decision. Defined.
#[global] Instance Event_eq_dec : EqDecision Event.
Proof. solve_decision. Defined.
#[global] Instance Entry_eq_dec : EqDecision Entry.
Proof. solve_decision. Defined.
#[global] Instance SourceKind_eq_dec : EqDecision SourceKind.
Proof. solve_decision. Defined.
#[global] Instance Source_eq_dec : EqDecision Source.
Proof. solve_decision. Defined.

Class Site := {
  (* the default managers: tables by primary key, or in table order *)
  Event_objects : gmap Z Event;
  Entry_objects : gmap Z Entry;
  Tag_objects : list Tag;
  RelatedSite_objects : list RelatedSite;
  (* the [all_visible] managers *)
  Event_all_visible : QuerySet Event;
  Entry_all_visible : QuerySet Entry;
  AudioSource_all_visible : QuerySet Source;
  ImageSource_all_visible : QuerySet Source;
  (* the database *)
  Event_ordering :: Ordering Event;
  Entry_ordering :: Ordering Entry;
  Source_ordering :: Ordering Source;
  has_entries : Event → bool;             (* not [entries=None] *)
  count_entries : Tag → Z;                (* what [Count('entries')] gives *)
  count_events : Tag → Z;                 (* what [Count('events')] gives *)
  (* methods of the models *)
  visible : Event → bool;
  sources_iterator : Event → list Source;
  prefetch_entries : list Z → bool → list Entry;
  get_page_length : HttpRequest → Z;
  (* forms, configuration, utilities *)
  SortForm_cleaned_data : list string → QueryDict → option (string * string);
  get_config : string → string;
  is_contributor : HttpRequest → bool;
  (* Django and the standard library *)
  quote_plus : string → string;
  slugify : string → string;
  reverse : string → Z → string → string;
  datetime_1900_01_01 : datetime;
}.

(** [urlencode(d)] for a dictionary given as its items. *)
Definition urlencode `{Site} (items : list (string * string)) : string :=
  join "&" (map (fun kv => quote_plus kv.1 +:+ "=" +:+ quote_plus kv.2) items).

(** [Tag.objects.filter(...).annotate(entry_count=Count('entries'),
    event_count=Count('events'))] *)
Definition annotate `{Site} (tags : list Tag) : list AnnotatedTag :=
  map (fun t => {| name := tag_name t;
                   entry_count := count_entries t;
                   event_count := count_events t |}) tags.

(** Following the foreign key [entry.event]. *)
Definition entry_event `{Site} (entry : Entry) : result Event :=
  match Event_objects !! event_id entry with
  | Some ev => Ok ev
  | None => Raise DoesNotExist
  end.

End Models.

(** ** [palanaeum.search] as the views use it *)

Module Search.
Import Py Django Models.

(** The interface: filters have a truth value and a URL form; the four
    functions are the ones [adv_search] imports. *)
Class SearchBackend := {
  Filter : Type;
  filter_bool : Filter → bool;
  as_url_param : Filter → string;
  Scores : Type;
  Hit : Type;
  init_filters : HttpRequest → list Filter;
  execute_filters : list Filter → Scores;
  get_search_results : Scores → string → list Hit;
  paginate_search_results :
    HttpRequest → list Hit → list Entry * Paginator Hit * Page Hit;
}.

End Search.

(** ** The views *)

Module Views.
Import Py Django Models Search.

(** [time.time()]: the clock is read by ticking it. *)
Record Clock := { now : nat → Z; ticks : nat }.

Definition time_time (c : Clock) : Z * Clock :=
  (now c (ticks c), {| now := now c; ticks := S (ticks c) |}).

(** The template contexts. *)
Record IndexContext := {
  newest_events : list Event;
  events_count : Z;
  entries_count : Z;
  sources_count : Z;
  new_sources : list Source;
  related_sites : list RelatedSite;
  welcome_text : string;
}.

Record EventsContext := {
  events_paginator : Paginator Event;
  events_page : Page Event;
}.

Record EventContext := {
  ctx_event : Event;
  ctx_entries : list Entry;
  ctx_sources : list Source;
  approval_msg : string;
  review_message : string;
}.

Record AdvSearchContext `{SearchBackend} := {
  search_paginator : option (Paginator Hit);
  search_entries : list Entry;
  search_filters : list Filter;
  search_done : bool;
  search_query : string;
  search_params : string;
  search_page : option (Page Hit);
  search_time : Z;
  search_ordering : string;
}.

Record TagResult := { id : string; text : string }.
Record TagsJson := { results : list TagResult }.

Section views.
Context `{Python} `{Site}.

(** The sort key of [index]: [source.created_date or datetime(1900, 1, 1)]. *)
Definition source_sort_key (source : Source) : datetime :=
  default datetime_1900_01_01 (created_date source).

Definition index (request : HttpRequest) : HttpResponse IndexContext :=
  let page_length := get_page_length request in
  let newest_events :=
    fetch (qs_upto (qs_filter Event_all_visible has_entries) page_length) in
  let events_count := qs_count Event_all_visible in
  let entries_count := qs_count Entry_all_visible in
  let sources_count := qs_count AudioSource_all_visible in
  let new_sources : list Source := [] in
  let new_sources :=
    new_sources ++ fetch (qs_upto (order_by AudioSource_all_visible ["-created_date"]) 5) in
  let new_sources :=
    new_sources ++ fetch (qs_upto (order_by ImageSource_all_visible ["-created_date"]) 5) in
  let new_sources := sorted source_sort_key true new_sources in
  let new_sources := slice new_sources 0 5 in
  let related_sites := RelatedSite_objects in
  let welcome_text := get_config "index_hello" in
  Rendered "palanaeum/index.html"
    {| newest_events := newest_events; events_count := events_count;
       entries_count := entries_count; sources_count := sources_count;
       new_sources := new_sources; related_sites := related_sites;
       welcome_text := welcome_text |}.

Definition events (request : HttpRequest) : result (HttpResponse EventsContext) :=
  let events := Event_all_visible in
  let sort_form := SortForm_cleaned_data ["name"; "date"] (GET request) in
  (* the statement [events.order_by(...)]: its value is dropped *)
  let _ := match sort_form with
           | Some (sort_by, sort_ord) => order_by events [sort_ord +:+ sort_by; "name"]
           | None => events
           end in
  let page_length := get_page_length request in
  let paginator := new_paginator (fetch events) page_length (page_length `div` 10) in
  let page_num := qd_get (GET request) "page" "1" in
  page ← try_except2 (page paginator (PageStr page_num))
            PageNotAnInteger (page paginator (PageInt 1))
            EmptyPage (n ← num_pages paginator; page paginator (PageInt n));
  Ok (Rendered "palanaeum/events_list.html"
        {| events_paginator := paginator; events_page := page |}).

Definition view_entry (request : HttpRequest) (entry_id : Z)
    : result (HttpResponse EventContext) :=
  entry ← get_object_or_404 Entry_objects entry_id;
  event ← entry_event entry;
  Ok (Redirect (reverse "view_event" (event_id entry) (slugify (event_name event))
                +:+ "#e" +:+ str (entry_pk entry))).

Definition view_event (request : HttpRequest) (event_id : Z)
    : result (HttpResponse EventContext) :=
  event ← get_object_or_404 Event_objects event_id;
  if negb (visible event) then Raise PermissionDenied
  else
    let entry_ids :=
      map entry_pk
        (fetch (qs_filter Entry_all_visible
                  (fun e => bool_decide (Models.event_id e = event_pk event)))) in
    let entries_map := prefetch_entries entry_ids (is_contributor request) in
    let entries := sorted order false entries_map in
    let sources := sources_iterator event in
    let approval_msg := get_config "approval_message" in
    let approval_explanation :=
      if decide (review_state event = REVIEW_APPROVED)
      then get_config "review_reviewed_explanation"
      else if decide (review_state event = REVIEW_PENDING)
      then get_config "review_pending_explanation"
      else "" in
    Ok (Rendered "palanaeum/event.html"
          {| ctx_event := event; ctx_entries := entries; ctx_sources := sources;
             approval_msg := approval_msg; review_message := approval_explanation |}).

Definition get_tags (request : HttpRequest) : HttpResponse TagsJson :=
  let query := qd_get (GET request) "q" "" in
  let tags :=
    annotate
      (List.filter (fun t => startswith (tag_name t) query
                             || contains (tag_name t) (" " +:+ query))
         Tag_objects) in
  Json {| results :=
    map (fun t => {| id := name t;
                     text := name t +:+ " (" +:+ str (entry_count t + event_count t) +:+ ")" |})
        (sorted (fun tag => - (entry_count tag + event_count tag)) false tags) |}.

Context `{SearchBackend}.

(** The loop of [adv_search] that collects the URL forms of the filters. *)
Definition collect_params (start : list string) (filters : list Filter) : list string :=
  fold_left (fun search_params search_filter =>
               if filter_bool search_filter
               then search_params ++ [as_url_param search_filter]
               else search_params)
    filters start.

Definition adv_search (request : HttpRequest) (clock : Clock)
    : HttpResponse AdvSearchContext * Clock :=
  let filters := init_filters request in
  let ordering := qd_get (GET request) "ordering" "rank" in
  let search_params := [urlencode [("ordering", ordering)]] in
  let search_params := collect_params search_params filters in
  let search_params := join "&" search_params in
  let '(entries, paginator, page, search_time, clock) :=
    if any filter_bool filters then
      let '(start_time, clock) := time_time clock in
      let entries_scores := execute_filters filters in
      let '(entries, paginator, page) :=
        paginate_search_results request (get_search_results entries_scores ordering) in
      let '(stop_time, clock) := time_time clock in
      (entries, Some paginator, Some page, stop_time - start_time, clock)
    else ([], None, None, 0, clock) in
  (Rendered "palanaeum/search/adv_search_results.html"
     {| search_paginator := paginator; search_entries := entries;
        search_filters := filters; search_done := any filter_bool filters;
        search_query := qd_get (GET request) "query" "";
        search_params := search_params; search_page := page;
        search_time := search_time; search_ordering := ordering |},
   clock).

End views.
End Views.

(** ** The search orchestrator of the specification

    The module [palanaeum.search] is described by the specification as
    four operations: [build_filters], [evaluate], [order] and [paginate].
    They are given here in the specification's words and packaged as a
    [SearchBackend]. *)

Module SpecSearch.
Import Py Django Models Search.

(** Modelled from the spec: the kinds of filter of [palanaeum.search].
    A kind names the request parameter it reads, its predicate on
    entries for a parameter value, and its contribution to the score. *)
Record FilterType := {
  param_key : string;
  predicate : string → Entry → bool;
  relevance : string → Entry → Z;
}.

(** Modelled from the spec: the filter objects of [palanaeum.search].
    A filter is a named predicate with a parameter value. *)
Record SpecFilter := {
  filter_type : FilterType;
  filter_value : string;
}.

(** Modelled from the spec: what [palanaeum.search] fixes, the
    recognized filters, in order, and the sort key behind each ordering
    other than [rank]. *)
Record SearchConfig := {
  filter_types : list FilterType;
  ordering_key : string → Z → Z;
}.

Section spec.
Context `{Python} `{Site} (config : SearchConfig).

(** Modelled from the spec: the truth value of a filter, which
    [palanaeum.search] defines.  A filter is active when its parameter
    was given and is not empty. *)
Definition active (f : SpecFilter) : bool :=
  negb (String.eqb (filter_value f) "").

(** Modelled from the spec: [Filter.as_url_param].  An inactive filter
    serializes to nothing. *)
Definition serialize (f : SpecFilter) : string :=
  if active f then urlencode [(param_key (filter_type f), filter_value f)]
  else "".

(** Modelled from the spec: [init_filters], the spec's [build_filters].
    Every recognized parameter key is parsed into a filter; a missing or
    empty parameter yields an inactive one. *)
Definition build_filters (request_params : QueryDict) : list SpecFilter :=
  map (fun ty => {| filter_type := ty;
                    filter_value := qd_get request_params (param_key ty) "" |})
      (filter_types config).

(** Modelled from the spec: the predicate of a filter of
    [palanaeum.search] at its parameter value. *)
Definition satisfies (f : SpecFilter) (e : Entry) : bool :=
  predicate (filter_type f) (filter_value f) e.

(** Modelled from the spec: how [execute_filters] combines filters.
    They combine conjunctively; an inactive one contributes no
    predicate. *)
Definition matches_all (filters : list SpecFilter) (e : Entry) : bool :=
  forallb (fun f => implb (active f) (satisfies f e)) filters.

(** Modelled from the spec: the relevance score [execute_filters]
    gives an entry, the sum of what the active filters contribute. *)
Definition score (filters : list SpecFilter) (e : Entry) : Z :=
  foldr (fun f acc => (if active f then relevance (filter_type f) (filter_value f) e else 0) + acc)
        0 filters.

(** Modelled from the spec: [execute_filters], the spec's [evaluate].
    It fails closed when no filter is active; otherwise the matching
    entries of the corpus are mapped, by identity, to their scores. *)
Definition evaluate (filters : list SpecFilter) : gmap Z Z :=
  if any active filters
  then score filters <$> filter (fun kv => matches_all filters kv.2 = true) Entry_objects
  else ∅.

(** Modelled from the spec: [get_search_results], the spec's [order].
    [rank] sorts by descending score; ties are broken by ascending entry
    identity. *)
Definition order_results (scored_entries : gmap Z Z) (ordering : string) : list (Z * Z) :=
  let by_identity := sorted (fun hit : Z * Z => hit.1) false (map_to_list scored_entries) in
  if String.eqb ordering "rank"
  then sorted (fun hit : Z * Z => hit.2) true by_identity
  else sorted (fun hit : Z * Z => ordering_key config ordering hit.1) false by_identity.

(** Modelled from the spec: the page number [paginate_search_results]
    serves, the one the request asks for clamped to the valid pages; not
    a number gives the first page, beyond the last gives the last. *)
Definition clamp_page (pages : Z) (page_param : string) : Z :=
  match int page_param with
  | None => 1
  | Some n => Z.max 1 (Z.min pages n)
  end.

(** Modelled from the spec: [paginate_search_results], the spec's
    [paginate].  A page size that is not positive puts everything on one
    page. *)
Definition paginate (request : HttpRequest) (ordered : list (Z * Z))
    : list Entry * Paginator (Z * Z) * Page (Z * Z) :=
  let page_size := get_page_length request in
  let paginator := new_paginator ordered page_size 0 in
  let pages := if page_size <=? 0 then 1 else Z.max 1 (ceil_div (count paginator) page_size) in
  let number := clamp_page pages (qd_get (GET request) "page" "1") in
  let items := if page_size <=? 0 then ordered
               else slice ordered ((number - 1) * page_size) (number * page_size) in
  let page := {| page_object_list := items; number := number; paginator := paginator |} in
  (omap (fun hit : Z * Z => Entry_objects !! hit.1) items, paginator, page).

(** Modelled from the spec: [palanaeum.search] as a whole. *)
#[local] Instance backend : SearchBackend := {|
  Filter := SpecFilter;
  filter_bool := active;
  as_url_param := serialize;
  Scores := gmap Z Z;
  Hit := Z * Z;
  init_filters := fun request => build_filters (GET request);
  execute_filters := evaluate;
  get_search_results := order_results;
  paginate_search_results := paginate;
|}.

End spec.
End SpecSearch.

(** ** A small site, used to run the views on concrete requests *)

Module Demo.
Import Py Django Models Search Views SpecSearch.

Definition ev1 : Event := {| event_pk := 1; event_name := "JordanCon"; review_state := REVIEW_APPROVED |}.
Definition ev2 : Event := {| event_pk := 2; event_name := "Hidden"; review_state := REVIEW_PENDING |}.
Definition ev3 : Event := {| event_pk := 3; event_name := "Signing"; review_state := REVIEW_OTHER |}.
Definition ev4 : Event := {| event_pk := 4; event_name := "Release party"; review_state := REVIEW_APPROVED |}.
Definition ev5 : Event := {| event_pk := 5; event_name := "Book fair"; review_state := REVIEW_APPROVED |}.

Definition en10 : Entry := {| entry_pk := 10; event_id := 1; order := 2 |}.
Definition en11 : Entry := {| entry_pk := 11; event_id := 1; order := 1 |}.
Definition en12 : Entry := {| entry_pk := 12; event_id := 3; order := 1 |}.

Definition audio (pk : Z) (d : option datetime) : Source :=
  {| source_kind := AudioSource; source_pk := pk; created_date := d |}.
Definition image (pk : Z) (d : option datetime) : Source :=
  {| source_kind := ImageSource; source_pk := pk; created_date := d |}.

(** Descending order on the creation date, undated rows last. *)
Definition by_created_desc (rows : list Source) : list Source :=
  sorted (fun s => default (-1) (created_date s)) true rows.

Definition site : Site := {|
  Event_objects := {[ 1 := ev1; 2 := ev2; 3 := ev3; 4 := ev4; 5 := ev5 ]};
  Entry_objects := {[ 10 := en10; 11 := en11; 12 := en12 ]};
  Tag_objects := [ {| tag_name := "cosmere" |}; {| tag_name := "the cosmere" |};
                   {| tag_name := "roshar" |}; {| tag_name := "cognitive" |} ];
  RelatedSite_objects := [];
  Event_all_visible :=
    {| qs_rows := [ev1; ev3; ev4; ev5]; qs_ordering := None; qs_stop := None |};
  Entry_all_visible := {| qs_rows := [en10; en11; en12]; qs_ordering := None; qs_stop := None |};
  AudioSource_all_visible :=
    {| qs_rows := [audio 1 (Some 100); audio 2 None; audio 3 (Some 300)];
       qs_ordering := None; qs_stop := None |};
  ImageSource_all_visible :=
    {| qs_rows := [image 1 (Some 200); image 2 (Some 400); image 3 None; image 4 (Some 50)];
       qs_ordering := None; qs_stop := None |};
  Event_ordering := fun _ rows => sorted event_pk true rows;
  Entry_ordering := fun _ rows => rows;
  Source_ordering := fun _ rows => by_created_desc rows;
  has_entries := fun e => bool_decide (event_pk e ≠ 2);
  count_entries := fun t => Z.of_nat (String.length (tag_name t));
  count_events := fun t => if String.eqb (tag_name t) "roshar" then 9 else 1;
  visible := fun e => bool_decide (event_pk e ≠ 2);
  sources_iterator := fun _ => [];
  prefetch_entries := fun ids _ => [en10; en11];
  get_page_length := fun _ => 2;
  SortForm_cleaned_data := fun _ q =>
    Some (qd_get q "sort_by" "date", qd_get q "sort_ord" "-");
  get_config := fun key => key;
  is_contributor := fun _ => false;
  quote_plus := fun s => s;
  slugify := fun s => s;
  reverse := fun view pk slug => "/" +:+ view +:+ "/" +:+ str pk +:+ "/" +:+ slug +:+ "/";
  datetime_1900_01_01 := 0;
|}.

(** An interpreter that reads the texts outside ASCII as the ASCII parser
    does. *)
Definition python : Python :=
  {| int := int_ascii; int_ascii_text := fun s _ _ => eq_refl |}.

Definition request (params : QueryDict) : HttpRequest :=
  {| method := "GET"; GET := params; session := []; user := None |}.

Definition clock : Clock := {| now := fun n => Z.of_nat n * 7; ticks := 0 |}.

(** Two filters: by event, and by a lower bound on the position. *)
Definition config : SearchConfig := {|
  filter_types :=
    [ {| param_key := "event";
         predicate := fun v e => bool_decide (Some (event_id e) = int_ascii v);
         relevance := fun _ _ => 1 |};
      {| param_key := "min_order";
         predicate := fun v e =>
           match int_ascii v with Some n => n <=? order e | None => false end;
         relevance := fun _ e => order e |} ];
  ordering_key := fun _ pk => pk;
|}.

(** The page number and the primary keys [events] shows for the query
    parameters. *)
Definition shown_events (params : QueryDict) : option (Z * list Z) :=
  match @events python site (request params) with
  | Ok (Rendered _ ctx) =>
      Some (number (events_page ctx), event_pk <$> page_object_list (events_page ctx))
  | _ => None
  end.

End Demo.

(** ** The remaining read-only views: [event_no_slug] and [tags_list] *)

Module MoreViews.
Import Py Django Models Views.

(** The many-to-many relations of a tag: the primary keys of the entries
    and of the events that carry it. *)
Class TagRelations := {
  tag_entries : Tag → list Z;
  tag_events : Tag → list Z;
}.

(** [d[k].append(v)] on a [defaultdict(list)]; the items keep the order
    in which their keys were first used. *)
Fixpoint dd_append {A} (d : list (Z * list A)) (k : Z) (v : A) : list (Z * list A) :=
  match d with
  | [] => [(k, [v])]
  | (k', vs) :: d' =>
      if k =? k' then (k', vs ++ [v]) :: d'
      else (k', vs) :: dd_append d' k v
  end.

(** The loop [for tag in tags: d[count(tag)].append(tag)], from an empty
    [defaultdict(list)]. *)
Definition group_by_count {A} (count : A → Z) (tags : list A) : list (Z * list A) :=
  fold_left (fun d tag => dd_append d (count tag) tag) tags [].

(** [sorted(d.items(), reverse=True)]: the items are pairs that start
    with their key, and the keys of a dictionary differ, so the pairs
    are ordered by key. *)
Definition sorted_items {A} (d : list (Z * list A)) : list (Z * list A) :=
  sorted (fun item : Z * list A => item.1) true d.

Record TagsListContext := {
  entry_tags : list (Z * list Tag);
  event_tags : list (Z * list Tag);
}.

Section more_views.
Context `{Site} `{TagRelations}.

Definition event_no_slug (request : HttpRequest) (event_id : Z)
    : result (HttpResponse EventContext) :=
  event ← get_object_or_404 Event_objects event_id;
  Ok (Redirect (reverse "view_event" event_id (slugify (event_name event)))).

(** [Tag.objects.exclude(entries=None)] and [Count('entries')] *)
Definition tags_with_entries : list Tag :=
  List.filter (fun t => negb (bool_decide (tag_entries t = []))) Tag_objects.
Definition entries_of_tag (t : Tag) : Z := Z.of_nat (length (tag_entries t)).

(** [Tag.objects.exclude(events=None)] and [Count('events')] *)
Definition tags_with_events : list Tag :=
  List.filter (fun t => negb (bool_decide (tag_events t = []))) Tag_objects.
Definition events_of_tag (t : Tag) : Z := Z.of_nat (length (tag_events t)).

(** What one query with [annotate(entry_count=Count('entries'),
    event_count=Count('events'))] counts, as [get_tags] asks it: the two
    relations are joined in the same query, so a tag has one row for
    every pair of one of its entries and one of its events (and, where
    one relation is empty, one row for every member of the other), and
    each [Count] counts the rows in which its own relation is present. *)
Definition count_over_join (own other : list Z) : Z :=
  Z.of_nat (length own) * Z.max 1 (Z.of_nat (length other)).

(** The annotations of the site are those of the joined query over the
    relations of the tags. *)
Definition annotated_over_join : Prop :=
  ∀ t, count_entries t = count_over_join (tag_entries t) (tag_events t)
       ∧ count_events t = count_over_join (tag_events t) (tag_entries t).

Definition tags_list (request : HttpRequest) : HttpResponse TagsListContext :=
  let entry_tags := group_by_count entries_of_tag tags_with_entries in
  let event_tags := group_by_count events_of_tag tags_with_events in
  let entry_tags := sorted_items entry_tags in
  let event_tags := sorted_items event_tags in
  Rendered "palanaeum/tags_list.html"
    {| entry_tags := entry_tags; event_tags := event_tags |}.

End more_views.
End MoreViews.

(** ** The database's order of the sources by creation date *)

Module Database.
Import Py Django Models.

(** [a] may stand before [b] under [ORDER BY created_date DESC]: a later
    date first; where the rows without a date go is the database's
    choice, first (PostgreSQL) or last (SQLite, MySQL). *)
Definition db_before (nulls_first : bool) (a b : Source) : Prop :=
  match created_date a, created_date b with
  | Some x, Some y => y ≤ x
  | None, None => True
  | None, Some _ => nulls_first = true
  | Some _, None => nulls_first = false
  end.

(** What the database guarantees of [order_by('-created_date')]: the
    same rows, in an order that respects [db_before].  The order among
    rows of one date is left to the database. *)
Class CreatedDateOrder `{Site} := {
  nulls_first : bool;
  order_by_created_perm (rows : list Source) :
    sql_order_by ["-created_date"] rows ≡ₚ rows;
  order_by_created_sorted (rows : list Source) :
    StronglySorted (db_before nulls_first) (sql_order_by ["-created_date"] rows);
}.

End Database.

(** ** More of the small site *)

Module Demo2.
Import Py Django Models Views MoreViews.

(** The small site with another page length. *)
Definition site_with_page_length (n : Z) : Site := {|
  Event_objects := @Event_objects Demo.site;
  Entry_objects := @Entry_objects Demo.site;
  Tag_objects := @Tag_objects Demo.site;
  RelatedSite_objects := @RelatedSite_objects Demo.site;
  Event_all_visible := @Event_all_visible Demo.site;
  Entry_all_visible := @Entry_all_visible Demo.site;
  AudioSource_all_visible := @AudioSource_all_visible Demo.site;
  ImageSource_all_visible := @ImageSource_all_visible Demo.site;
  Event_ordering := @Event_ordering Demo.site;
  Entry_ordering := @Entry_ordering Demo.site;
  Source_ordering := @Source_ordering Demo.site;
  has_entries := @has_entries Demo.site;
  count_entries := @count_entries Demo.site;
  count_events := @count_events Demo.site;
  visible := @visible Demo.site;
  sources_iterator := @sources_iterator Demo.site;
  prefetch_entries := @prefetch_entries Demo.site;
  get_page_length := fun _ => n;
  SortForm_cleaned_data := @SortForm_cleaned_data Demo.site;
  get_config := @get_config Demo.site;
  is_contributor := @is_contributor Demo.site;
  quote_plus := @quote_plus Demo.site;
  slugify := @slugify Demo.site;
  reverse := @reverse Demo.site;
  datetime_1900_01_01 := @datetime_1900_01_01 Demo.site;
|}.

(** The small site with other tags, annotated as the joined query of
    [get_tags] counts them over the relations [rel]. *)
Definition site_with_tags (tags : list Tag) (rel : TagRelations) : Site := {|
  Event_objects := @Event_objects Demo.site;
  Entry_objects := @Entry_objects Demo.site;
  Tag_objects := tags;
  RelatedSite_objects := @RelatedSite_objects Demo.site;
  Event_all_visible := @Event_all_visible Demo.site;
  Entry_all_visible := @Entry_all_visible Demo.site;
  AudioSource_all_visible := @AudioSource_all_visible Demo.site;
  ImageSource_all_visible := @ImageSource_all_visible Demo.site;
  Event_ordering := @Event_ordering Demo.site;
  Entry_ordering := @Entry_ordering Demo.site;
  Source_ordering := @Source_ordering Demo.site;
  has_entries := @has_entries Demo.site;
  count_entries := fun t => count_over_join (tag_entries t) (tag_events t);
  count_events := fun t => count_over_join (tag_events t) (tag_entries t);
  visible := @visible Demo.site;
  sources_iterator := @sources_iterator Demo.site;
  prefetch_entries := @prefetch_entries Demo.site;
  get_page_length := @get_page_length Demo.site;
  SortForm_cleaned_data := @SortForm_cleaned_data Demo.site;
  get_config := @get_config Demo.site;
  is_contributor := @is_contributor Demo.site;
  quote_plus := @quote_plus Demo.site;
  slugify := @slugify Demo.site;
  reverse := @reverse Demo.site;
  datetime_1900_01_01 := @datetime_1900_01_01 Demo.site;
|}.

(** Two tags: one on 7 entries and no event, one on 2 entries and 3
    events. *)
Definition allomancy : Tag := {| tag_name := "allomancy" |}.
Definition awakening : Tag := {| tag_name := "awakening" |}.
Definition usage_relations : TagRelations := {|
  tag_entries := fun t =>
    if String.eqb (tag_name t) "allomancy" then [1; 2; 3; 4; 5; 6; 7]
    else if String.eqb (tag_name t) "awakening" then [10; 11]
    else [];
  tag_events := fun t =>
    if String.eqb (tag_name t) "awakening" then [1; 3; 4] else [];
|}.





(** Which entries and events carry the tags of the small site. *)
Definition relations : TagRelations := {|
  tag_entries := fun t =>
    if String.eqb (tag_name t) "cosmere" then [10; 11]
    else if String.eqb (tag_name t) "roshar" then [12]
    else if String.eqb (tag_name t) "cognitive" then [10; 12]
    else [];
  tag_events := fun t =>
    if String.eqb (tag_name t) "the cosmere" then [1; 3; 4]
    else if String.eqb (tag_name t) "roshar" then [1]
    else [];
|}.

End Demo2.

(** ** The vocabulary of the properties *)

(** The order [sorted] establishes between an element and a later one. *)
Definition key_ordered {A} (key : A → Z) (reverse : bool) (a b : A) : Prop :=
  if reverse then key b ≤ key a else key a ≤ key b.

(** The number the tag endpoint sorts by and shows for a tag: the sum
    of its two annotations. *)
Definition usage (t : Models.AnnotatedTag) : Z :=
  Models.entry_count t + Models.event_count t.

(** The pages of a paginator, asked for by number from 1 to [n]. *)
Definition all_pages `{Py.Python} {A} (p : Django.Paginator A) (n : Z)
    : list (Py.result (Django.Page A)) :=
  (fun k => Django.page p (Django.PageInt k)) <$> seqZ 1 n.

(** The query parameters of a request other than those of the sort form. *)
Definition without_sort_params (q : Django.QueryDict) : Django.QueryDict :=
  filter (fun kv => kv.1 ≠ "sort_by" ∧ kv.1 ≠ "sort_ord") q.

(** Two requests that differ at most in [sort_by] and [sort_ord]. *)
Definition differ_only_in_sort (r1 r2 : Django.HttpRequest) : Prop :=
  Django.method r1 = Django.method r2
  ∧ Django.session r1 = Django.session r2
  ∧ Django.user r1 = Django.user r2
  ∧ without_sort_params (Django.GET r1) = without_sort_params (Django.GET r2).

(** The page [events] serves for the text of the [page] parameter, when
    the paginator has [last] pages. *)
Definition served_page `{Py.Python} (last : Z) (page_param : string) : Z :=
  match Py.int page_param with
  | None => 1
  | Some n => if (n <? 1) || (last <? n) then last else n
  end.

(** What the loop of [tags_list] has built after the tags [tags]: a
    dictionary [d] with distinct keys, whose groups together hold the
    tags, where the count of every tag is a key and the group of a key
    is the tags of that count, in order. *)
Definition grouped {A} (count : A → Z) (tags : list A) (d : list (Z * list A)) : Prop :=
  NoDup d.*1
  ∧ concat d.*2 ≡ₚ tags
  ∧ (∀ a, a ∈ tags → count a ∈ d.*1)
  ∧ (∀ k g, (k, g) ∈ d → g ≠ [] ∧ g = filter (fun a => count a = k) tags).

(** * Properties *)

(** ** The stable sort *)

Section sorted_facts.
Import Py.
Context {A : Type} (key : A → Z) (reverse : bool).

#[local] Abbreviation key_ordered := (key_ordered key reverse).

Lemma key_before_spec a b :
  key_before reverse (key a) (key b) = true ↔ key_ordered a b ∧ key a ≠ key b.
Proof. unfold key_before, key_ordered. destruct reverse; rewrite Z.ltb_lt; lia. Qed.

Lemma key_before_false a b :
  key_before reverse (key a) (key b) = false → key_ordered b a.
Proof. unfold key_before, key_ordered. destruct reverse; rewrite Z.ltb_ge; lia. Qed.

#[local] Instance key_ordered_trans : Transitive key_ordered.
Proof. intros a b c. unfold key_ordered. destruct reverse; lia. Qed.

Lemma insert_sorted_perm x l : insert_sorted key reverse x l ≡ₚ x :: l.
Proof.
  induction l as [|y l IH]; simpl; [done|].
  destruct (key_before _ _ _); [|done].
  rewrite IH. apply Permutation_swap.
Qed.

Lemma sorted_perm l : sorted key reverse l ≡ₚ l.
Proof.
  induction l as [|x l IH]; simpl; [done|].
  by rewrite insert_sorted_perm, IH.
Qed.

Lemma insert_sorted_StronglySorted x l :
  StronglySorted key_ordered l →
  StronglySorted key_ordered (insert_sorted key reverse x l).
Proof.
  induction 1 as [|y l Hl IH Hy]; simpl.
  { repeat constructor. }
  destruct (key_before reverse (key y) (key x)) eqn:Hb.
  - constructor; [done|].
    rewrite insert_sorted_perm. constructor; [|done].
    by apply key_before_spec in Hb as [? _].
  - apply key_before_false in Hb.
    constructor; [by constructor|].
    constructor; [done|].
    eapply Forall_impl; [exact Hy|]. intros z Hz. by etrans.
Qed.

Lemma sorted_StronglySorted l : StronglySorted key_ordered (sorted key reverse l).
Proof.
  induction l as [|x l IH]; simpl; [constructor|].
  by apply insert_sorted_StronglySorted.
Qed.

(** Stability: the elements of one key keep their order. *)
Lemma insert_sorted_stable k x l :
  filter (fun a => key a = k) (insert_sorted key reverse x l)
  = filter (fun a => key a = k) (x :: l).
Proof.
  induction l as [|y l IH]; simpl; [done|].
  destruct (key_before reverse (key y) (key x)) eqn:Hb; [|done].
  apply key_before_spec in Hb as [_ Hne].
  rewrite filter_cons, IH, !filter_cons.
  repeat case_decide; congruence.
Qed.

Lemma sorted_stable k l :
  filter (fun a => key a = k) (sorted key reverse l) = filter (fun a => key a = k) l.
Proof.
  induction l as [|x l IH]; simpl; [done|].
  by rewrite insert_sorted_stable, !filter_cons, IH.
Qed.

Lemma sorted_elem_of x l : x ∈ sorted key reverse l ↔ x ∈ l.
Proof. by rewrite sorted_perm. Qed.

Lemma sorted_length l : length (sorted key reverse l) = length l.
Proof. by rewrite sorted_perm. Qed.

End sorted_facts.

Lemma StronglySorted_mono {A} (R1 R2 : relation A) l :
  (∀ a b, R1 a b → R2 a b) → StronglySorted R1 l → StronglySorted R2 l.
Proof.
  intros HR. induction 1 as [|x l Hl IH Hx]; constructor; [done|].
  eapply Forall_impl; [exact Hx|]. auto.
Qed.


(** ** Slices *)

Lemma slice_take_drop {A} (l : list A) (lo hi : Z) :
  0 ≤ lo ≤ hi →
  Py.slice l lo hi = take (Z.to_nat hi - Z.to_nat lo) (drop (Z.to_nat lo) l).
Proof.
  intros Hb. unfold Py.slice, Py.slice_index.
  destruct (Z.ltb_spec lo 0), (Z.ltb_spec hi 0); try lia.
  set (len := Z.of_nat (length l)).
  destruct (Z.le_gt_cases hi len) as [Hhi|Hhi].
  - by rewrite !Z.min_r by lia.
  - rewrite (Z.min_l len hi) by lia.
    destruct (Z.le_gt_cases lo len) as [Hlo|Hlo].
    + rewrite Z.min_r by lia.
      rewrite !take_ge; [done|rewrite length_drop; lia..].
    + rewrite Z.min_l by lia.
      rewrite !drop_ge by lia. by rewrite !take_nil.
Qed.

Lemma slice_prefix {A} (l : list A) (n : Z) :
  0 ≤ n → Py.slice l 0 n = take (Z.to_nat n) l.
Proof.
  intros Hn. rewrite slice_take_drop by lia. simpl. by rewrite Nat.sub_0_r.
Qed.

(** ** The tag query *)

Section tags.
Import Py Django Models Views.
Context `{Site}.

(** For every query string the tag endpoint answers with a JSON object
    [{results: [{id, text}]}]; the results are the tags whose name
    starts with the query or contains it after a space, one result per
    tag, listed by non-increasing sum of the two annotations, which is
    the number shown in [text]. *)
Lemma get_tags_sorted_by_usage (request : HttpRequest) :
  ∃ tags : list AnnotatedTag,
    get_tags request
      = Json {| results :=
                  map (fun t => {| id := name t;
                                   text := name t +:+ " (" +:+ str (usage t) +:+ ")" |}) tags |}
    ∧ tags ≡ₚ annotate
                (List.filter
                   (fun t => startswith (tag_name t) (qd_get (GET request) "q" "")
                             || contains (tag_name t) (" " +:+ qd_get (GET request) "q" ""))
                   Tag_objects)
    ∧ StronglySorted (fun a b => usage b ≤ usage a) tags.
Proof.
  eexists. split; [reflexivity|]. split.
  - apply sorted_perm.
  - eapply StronglySorted_mono; [|apply sorted_StronglySorted].
    intros a b. unfold key_ordered, usage. lia.
Qed.

End tags.

(** ** The home page *)

Section home.
Import Py Django Models Views.
Context `{Site}.


End home.

(** ** The paginator *)

Lemma ceil_div_bounds a b :
  0 < b → (Django.ceil_div a b - 1) * b < a ≤ Django.ceil_div a b * b.
Proof.
  intros Hb. unfold Django.ceil_div.
  pose proof (Z.div_mod (- a) b ltac:(lia)) as Hdm.
  pose proof (Z.mod_pos_bound (- a) b Hb) as Hm.
  nia.
Qed.

Lemma concat_chunks {A} (l : list A) (c m : nat) :
  concat ((fun i : nat => take c (drop (i * c) l)) <$> seq 0 m) = take (m * c) l.
Proof.
  induction m as [|m IH]; [done|].
  rewrite seq_S, fmap_app, concat_app, IH. simpl.
  rewrite app_nil_r, take_take_drop. f_equal. lia.
Qed.

Section paginator_facts.
Import Py Django.
Context `{Python} {A : Type} (l : list A) (per_page orphans : Z).
Hypothesis per_page_pos : 0 < per_page.
Hypothesis orphans_nonneg : 0 ≤ orphans.

#[local] Abbreviation p := (new_paginator l per_page orphans).
#[local] Abbreviation hits := (Z.max 1 (count p - orphans)).
#[local] Abbreviation pages := (ceil_div hits per_page).

Lemma num_pages_new_paginator : num_pages p = Ok pages.
Proof.
  unfold num_pages. simpl. rewrite andb_false_r.
  destruct (Z.eqb_spec per_page 0); [lia|done].
Qed.

Lemma pages_pos : 1 ≤ pages.
Proof.
  pose proof (ceil_div_bounds hits per_page per_page_pos).
  assert (1 ≤ hits) by lia. nia.
Qed.

Lemma validate_number_in_range (k : Z) :
  1 ≤ k ≤ pages → validate_number p (PageInt k) = Ok k.
Proof.
  intros Hk. unfold validate_number. simpl.
  destruct (Z.ltb_spec k 1); [lia|].
  rewrite num_pages_new_paginator. simpl.
  destruct (Z.gtb_spec k pages); [lia|done].
Qed.

(** A page before the last holds [per_page] items. *)
Lemma page_inner (k : Z) :
  1 ≤ k < pages →
  page p (PageInt k)
  = Ok {| page_object_list := take (Z.to_nat per_page) (drop (Z.to_nat ((k - 1) * per_page)) l);
          number := k; paginator := p |}.
Proof.
  intros Hk. unfold page. rewrite validate_number_in_range by lia. simpl.
  pose proof (ceil_div_bounds hits per_page per_page_pos) as Hc.
  assert (hits = count p - orphans) as Hh by nia.
  change (Z.of_nat (length l)) with (count p).
  destruct (Z.geb_spec ((k - 1) * per_page + per_page + orphans) (count p)); [nia|].
  rewrite slice_take_drop by nia.
  do 3 f_equal. nia.
Qed.

(** The last page runs to the end of the list. *)
Lemma page_last :
  page p (PageInt pages)
  = Ok {| page_object_list := drop (Z.to_nat ((pages - 1) * per_page)) l;
          number := pages; paginator := p |}.
Proof.
  pose proof pages_pos as Hp.
  unfold page. rewrite validate_number_in_range by lia. simpl.
  pose proof (ceil_div_bounds hits per_page per_page_pos) as Hc.
  assert (count p - orphans ≤ hits) as Hh by lia.
  change (Z.of_nat (length l)) with (count p).
  destruct (Z.geb_spec ((pages - 1) * per_page + per_page + orphans) (count p)); [|nia].
  assert (0 ≤ count p) by (unfold count; lia).
  destruct (Z.le_gt_cases ((pages - 1) * per_page) (count p)).
  - rewrite slice_take_drop by nia.
    rewrite take_ge; [done|]. rewrite length_drop. unfold count. simpl. lia.
  - assert (hits = 1) by nia.
    assert (pages = 1) by nia. nia.
Qed.

Lemma page_in_range (k : Z) :
  1 ≤ k ≤ pages → ∃ pg, page p (PageInt k) = Ok pg ∧ number pg = k.
Proof.
  intros Hk. destruct (decide (k = pages)) as [->|Hne].
  - rewrite page_last. by eexists.
  - rewrite page_inner by lia. by eexists.
Qed.

(** C4: for a fixed ordered sequence, a positive page size and a number
    of orphans that is not negative, the paginator has pages 1 to
    [num_pages], each of them is produced, and their contents
    concatenated in ascending page number are the sequence itself: every
    item stands on exactly one page, none is repeated and none is
    skipped between one page and the next. *)
Theorem pagination_is_a_partition :
  ∃ (n : Z) (pgs : list (Page A)),
    num_pages p = Ok n
    ∧ all_pages p n = Ok <$> pgs
    ∧ concat (page_object_list <$> pgs) = l.
Proof.
  pose proof pages_pos as Hp.
  exists pages.
  set (n' := Z.to_nat (pages - 1)).
  assert (Hn : Z.of_nat n' = pages - 1) by (unfold n'; lia). clearbody n'.
  exists (((fun i : nat =>
             {| page_object_list := take (Z.to_nat per_page) (drop (i * Z.to_nat per_page) l);
                number := Z.of_nat i + 1; paginator := p |}) <$> seq 0 n')
          ++ [ {| page_object_list := drop (n' * Z.to_nat per_page) l;
                  number := pages; paginator := p |} ]).
  split; [apply num_pages_new_paginator|]. split.
  - unfold all_pages, seqZ.
    replace (Z.to_nat pages) with (S n') by lia.
    rewrite seq_S, !fmap_app, <-!list_fmap_compose. simpl. f_equal.
    + apply list_fmap_ext. intros i k Hk. apply lookup_seq in Hk as [-> Hk]. simpl.
      rewrite page_inner by lia.
      replace (Z.of_nat i + 1 - 1) with (Z.of_nat i) by lia.
      by rewrite Z2Nat.inj_mul, Nat2Z.id by lia.
    + replace (Z.of_nat n' + 1) with pages by lia.
      rewrite page_last, <-Hn.
      by rewrite Z2Nat.inj_mul, Nat2Z.id by lia.
  - rewrite fmap_app, concat_app, <-list_fmap_compose. simpl.
    rewrite app_nil_r. unfold compose. simpl.
    rewrite concat_chunks. apply take_drop.
Qed.

End paginator_facts.

(** ** The list of events *)

Lemma qd_get_without_sort_params (q : Django.QueryDict) (key default : string) :
  key ≠ "sort_by" → key ≠ "sort_ord" →
  Django.qd_get (without_sort_params q) key default = Django.qd_get q key default.
Proof.
  intros H1 H2. unfold Django.qd_get, without_sort_params.
  rewrite list_filter_filter_l; [done|].
  intros [k v]. simpl. naive_solver.
Qed.

Section events_list.
Import Py Django Models Views.
Context `{Python} `{Site}.

(** The paginator [events] builds for a request. *)
#[local] Abbreviation events_paginator_of request :=
  (new_paginator (fetch Event_all_visible) (get_page_length request)
     (get_page_length request `div` 10)).

(** C2: in the list of events (page length positive), a [page] parameter
    that is not a number, one that Python's [int] refuses, gives the
    first page, and one that [int] reads as a number beyond the last
    page gives the last page. *)
Theorem events_page_fallback (request : HttpRequest) :
  0 < get_page_length request →
  let paginator := events_paginator_of request in
  let page_param := qd_get (GET request) "page" "1" in
  ∃ last first_page last_page,
    num_pages paginator = Ok last
    ∧ page paginator (PageInt 1) = Ok first_page ∧ number first_page = 1
    ∧ page paginator (PageInt last) = Ok last_page ∧ number last_page = last
    ∧ (int page_param = None →
         events request
         = Ok (Rendered "palanaeum/events_list.html"
                 {| events_paginator := paginator; events_page := first_page |}))
    ∧ (∀ n, int page_param = Some n → last < n →
         events request
         = Ok (Rendered "palanaeum/events_list.html"
                 {| events_paginator := paginator; events_page := last_page |})).
Proof.
  intros Hlen paginator page_param.
  assert (0 ≤ get_page_length request `div` 10) as Horph by (apply Z.div_pos; lia).
  assert (Hpages : 1 ≤ ceil_div (Z.max 1 (count paginator - get_page_length request `div` 10))
                         (get_page_length request)) by (by apply pages_pos).
  assert (Hnum : num_pages paginator = Ok (ceil_div
            (Z.max 1 (count paginator - get_page_length request `div` 10))
            (get_page_length request))) by (by apply num_pages_new_paginator).
  destruct (λ Hr, page_in_range (fetch Event_all_visible) _ _ Hlen Horph 1 Hr)
    as (first_page & Hfirst & Hfirst_no); [fold paginator; lia|].
  destruct (λ Hr, page_in_range (fetch Event_all_visible) _ _ Hlen Horph
              (ceil_div (Z.max 1 (count paginator - get_page_length request `div` 10))
                 (get_page_length request)) Hr)
    as (last_page & Hlast & Hlast_no); [fold paginator; lia|].
  fold paginator in Hfirst, Hlast.
  eexists _, first_page, last_page.
  split; [exact Hnum|]. do 4 (split; [done|]).
  split.
  - intros Hparse. unfold events. fold paginator page_param.
    unfold page at 1. unfold validate_number at 1. rewrite Hparse. simpl.
    by rewrite Hfirst.
  - intros n Hparse Hbeyond. unfold events. fold paginator page_param.
    unfold page at 1. unfold validate_number at 1. rewrite Hparse. simpl.
    destruct (Z.ltb_spec n 1); [lia|].
    rewrite Hnum. simpl.
    destruct (Z.gtb_spec n (ceil_div
       (Z.max 1 (count paginator - get_page_length request `div` 10))
       (get_page_length request))); [|lia].
    destruct (Z.eqb_spec n 1); [lia|]. simpl.
    by rewrite Hlast.
Qed.

(** C9: the list of events ignores the sort form.  Two requests that
    differ only in [sort_by] and [sort_ord], read with the same page
    length, get the same response: the same paginator over the same
    sequence of events and the same page of it. *)
Theorem events_ignores_sort_form (r1 r2 : HttpRequest) :
  differ_only_in_sort r1 r2 →
  get_page_length r1 = get_page_length r2 →
  events r1 = events r2.
Proof.
  intros (_ & _ & _ & Hget) Hlen. unfold events.
  rewrite <-(qd_get_without_sort_params (GET r1) "page" "1") by done.
  rewrite <-(qd_get_without_sort_params (GET r2) "page" "1") by done.
  by rewrite Hget, Hlen.
Qed.

End events_list.

(** ** Single events and entries *)

Section single_objects.
Import Py Django Models Views.
Context `{Site}.

(** C5, as the code has it: a request for an event or an entry that does
    not exist is answered with not-found; a request for an event that
    exists and is not visible is refused with permission-denied; a
    request for an entry that exists is redirected to its place on the
    page of its event, and no visibility is consulted. *)
Theorem missing_not_found_invisible_forbidden (request : HttpRequest) (pk : Z) :
  (Event_objects !! pk = None → respond (view_event request pk) = NotFound)
  ∧ (Entry_objects !! pk = None → respond (view_entry request pk) = NotFound)
  ∧ (∀ ev, Event_objects !! pk = Some ev → visible ev = false →
       respond (view_event request pk) = Forbidden)
  ∧ (∀ en ev, Entry_objects !! pk = Some en → Event_objects !! event_id en = Some ev →
       respond (view_entry request pk)
       = Redirect (reverse "view_event" (event_id en) (slugify (event_name ev))
                   +:+ "#e" +:+ str (entry_pk en))).
Proof.
  repeat split.
  - intros Hnone. unfold view_event, get_object_or_404. by rewrite Hnone.
  - intros Hnone. unfold view_entry, get_object_or_404. by rewrite Hnone.
  - intros ev Hev Hvis. unfold view_event, get_object_or_404. rewrite Hev. simpl.
    by rewrite Hvis.
  - intros en ev Hen Hev. unfold view_entry, get_object_or_404. rewrite Hen. simpl.
    unfold entry_event. by rewrite Hev.
Qed.

End single_objects.

(** ** The advanced search *)

Section advanced_search.
Import Py Django Models Search Views.
Context `{Site} `{SearchBackend}.

Lemma collect_params_spec (start : list string) (filters : list Filter) :
  collect_params start filters
  = start ++ (as_url_param <$> List.filter filter_bool filters).
Proof.
  unfold collect_params. revert start.
  induction filters as [|f filters IH]; intros start; simpl.
  { by rewrite app_nil_r. }
  rewrite IH. destruct (filter_bool f); [|done].
  by rewrite <-app_assoc.
Qed.

Lemma any_false_iff {A} (truth : A → bool) (l : list A) :
  any truth l = false ↔ List.filter truth l = [].
Proof.
  unfold any. induction l as [|x l IH]; simpl; [done|].
  destruct (truth x); simpl; [split; discriminate|done].
Qed.

(** The context [adv_search] renders, field by field. *)
Lemma adv_search_context (request : HttpRequest) (clock : Clock) :
  ∃ ctx,
    (adv_search request clock).1
      = Rendered "palanaeum/search/adv_search_results.html" ctx
    ∧ search_filters ctx = init_filters request
    ∧ search_params ctx
      = join "&" (urlencode [("ordering", qd_get (GET request) "ordering" "rank")]
                  :: (as_url_param <$> List.filter filter_bool (init_filters request)))
    ∧ search_entries ctx
      = if any filter_bool (init_filters request)
        then (paginate_search_results request
                (get_search_results (execute_filters (init_filters request))
                   (qd_get (GET request) "ordering" "rank"))).1.1
        else [].
Proof.
  unfold adv_search.
  destruct (any filter_bool (init_filters request)).
  - destruct (paginate_search_results _ _) as [[entries paginator] page].
    eexists. split; [reflexivity|]. simpl. by rewrite collect_params_spec.
  - eexists. split; [reflexivity|]. simpl. by rewrite collect_params_spec.
Qed.

(** C1: when no filter built from the request is active, the advanced
    search runs nothing: the entries are empty, there is neither a
    paginator nor a page, the search time is 0 and the clock was not
    read. *)
Theorem adv_search_no_active_filter (request : HttpRequest) (clock : Clock) :
  List.filter filter_bool (init_filters request) = [] →
  ∃ ctx,
    adv_search request clock
      = (Rendered "palanaeum/search/adv_search_results.html" ctx, clock)
    ∧ search_entries ctx = []
    ∧ search_paginator ctx = None
    ∧ search_page ctx = None
    ∧ search_time ctx = 0
    ∧ search_done ctx = false.
Proof.
  intros Hnone%any_false_iff. unfold adv_search. rewrite Hnone.
  eexists. split; [reflexivity|]. by simpl.
Qed.

(** C7: the echoed search parameters are the ordering parameter followed
    by the URL forms of the active filters, in order, joined by [&]; a
    filter that is not active contributes nothing. *)
Theorem adv_search_params_of_active_filters (request : HttpRequest) (clock : Clock) :
  ∃ ctx,
    (adv_search request clock).1
      = Rendered "palanaeum/search/adv_search_results.html" ctx
    ∧ search_params ctx
      = join "&" (urlencode [("ordering", qd_get (GET request) "ordering" "rank")]
                  :: (as_url_param <$> List.filter filter_bool (init_filters request))).
Proof.
  destruct (adv_search_context request clock) as (ctx & Hctx & _ & Hparams & _).
  by exists ctx.
Qed.

End advanced_search.

(** ** The advanced search over the search orchestrator of the specification *)

Lemma slice_subseteq {A} (l : list A) (lo hi : Z) : Py.slice l lo hi ⊆ l.
Proof.
  unfold Py.slice. etrans; [apply subseteq_take|apply subseteq_drop].
Qed.

Section spec_search.
Import Py Django Models Search Views SpecSearch.
Context `{Python} `{Site} (config : SearchConfig).

#[local] Abbreviation spec_adv_search :=
  (@adv_search _ (SpecSearch.backend config)).

(** Every scored entry is an entry of the corpus that satisfies every
    active filter. *)
Lemma evaluate_sound (filters : list SpecFilter) (pk s : Z) :
  evaluate filters !! pk = Some s →
  ∃ e, Entry_objects !! pk = Some e ∧ matches_all filters e = true.
Proof.
  unfold evaluate. destruct (any active filters); [|by rewrite lookup_empty].
  intros (e & _ & He)%lookup_fmap_Some.
  apply map_lookup_filter_Some in He as [He Hm]. eauto.
Qed.

Lemma order_results_sound (scores : gmap Z Z) (ordering : string) (hit : Z * Z) :
  hit ∈ order_results config scores ordering → scores !! hit.1 = Some hit.2.
Proof.
  unfold order_results.
  destruct (String.eqb ordering "rank"); rewrite !sorted_elem_of;
    destruct hit; apply elem_of_map_to_list.
Qed.

Lemma paginate_sound (request : HttpRequest) (ordered : list (Z * Z)) (e : Entry) :
  e ∈ (paginate request ordered).1.1 →
  ∃ hit, hit ∈ ordered ∧ Entry_objects !! hit.1 = Some e.
Proof.
  unfold paginate. simpl. intros (hit & Hhit & He)%list_elem_of_omap.
  exists hit. split; [|done].
  destruct (get_page_length request <=? 0); [done|].
  by eapply slice_subseteq.
Qed.

(** C6: every entry the advanced search shows satisfies the predicate of
    every active filter. *)
Theorem adv_search_entries_satisfy_filters (request : HttpRequest) (clock : Clock) :
  ∃ ctx,
    (spec_adv_search request clock).1
      = Rendered "palanaeum/search/adv_search_results.html" ctx
    ∧ search_filters ctx = build_filters config (GET request)
    ∧ ∀ e f, e ∈ search_entries ctx → f ∈ search_filters ctx →
        active f = true → satisfies f e = true.
Proof.
  destruct (adv_search_context (H0 := SpecSearch.backend config) request clock)
    as (ctx & Hctx & Hfilters & _ & Hentries).
  exists ctx. split; [done|]. split; [done|].
  intros e f He Hf Hactive. rewrite Hfilters in Hf. rewrite Hentries in He.
  simpl in He, Hf.
  destruct (any active (build_filters config (GET request)));
    [|by apply elem_of_nil in He].
  apply paginate_sound in He as (hit & Hhit%order_results_sound & He).
  apply evaluate_sound in Hhit as (e' & He' & Hall).
  assert (e' = e) as -> by congruence.
  unfold matches_all in Hall. rewrite forallb_forall in Hall.
  apply list_elem_of_In, Hall in Hf. by rewrite Hactive in Hf.
Qed.

End spec_search.

(** * The properties on the small site *)

Section on_the_small_site.
Import Py Django Models Search Views SpecSearch.
#[local] Existing Instance Demo.python.

#[local] Abbreviation demo_backend := (@SpecSearch.backend Demo.python Demo.site Demo.config).
#[local] Abbreviation demo_search := (@adv_search Demo.site demo_backend).

Lemma adv_search_no_active_filter_witness :
  ∃ ctx,
    demo_search (Demo.request [("page", "2")]) Demo.clock
      = (Rendered "palanaeum/search/adv_search_results.html" ctx, Demo.clock)
    ∧ search_entries ctx = []
    ∧ search_paginator ctx = None
    ∧ search_page ctx = None
    ∧ search_time ctx = 0
    ∧ search_done ctx = false.
Proof.
  apply (@adv_search_no_active_filter Demo.site demo_backend). reflexivity.
Defined.

Lemma events_page_fallback_witness :
  let paginator := new_paginator [Demo.ev1; Demo.ev3; Demo.ev4; Demo.ev5] 2 0 in
  (∃ first_page,
     page paginator (PageInt 1) = Ok first_page
     ∧ @events Demo.python Demo.site (Demo.request [("page", "two")])
       = Ok (Rendered "palanaeum/events_list.html"
               {| events_paginator := paginator; events_page := first_page |}))
  ∧ (∃ last last_page,
       num_pages paginator = Ok last
       ∧ page paginator (PageInt last) = Ok last_page
       ∧ @events Demo.python Demo.site (Demo.request [("page", "99")])
         = Ok (Rendered "palanaeum/events_list.html"
                 {| events_paginator := paginator; events_page := last_page |})).
Proof.
  intros paginator. split.
  - destruct (@events_page_fallback Demo.python Demo.site (Demo.request [("page", "two")])
                ltac:(reflexivity))
      as (last & first_page & last_page & _ & Hfirst & _ & _ & _ & Htext & _).
    exists first_page. split; [exact Hfirst|]. apply Htext. reflexivity.
  - destruct (@events_page_fallback Demo.python Demo.site (Demo.request [("page", "99")])
                ltac:(reflexivity))
      as (last & first_page & last_page & Hnum & _ & _ & Hlast & _ & _ & Hfar).
    exists last, last_page. split; [exact Hnum|]. split; [exact Hlast|].
    apply (Hfar 99); [reflexivity|].
    change (num_pages paginator) with (Ok (A := Z) 2) in Hnum.
    injection Hnum as <-. reflexivity.
Defined.

Lemma pagination_is_a_partition_witness :
  ∃ (n : Z) (pgs : list (Page Z)),
    num_pages (new_paginator [1; 2; 3; 4; 5; 6; 7] 3 1) = Ok n
    ∧ all_pages (new_paginator [1; 2; 3; 4; 5; 6; 7] 3 1) n = Ok <$> pgs
    ∧ concat (page_object_list <$> pgs) = [1; 2; 3; 4; 5; 6; 7].
Proof.
  apply (pagination_is_a_partition [1; 2; 3; 4; 5; 6; 7] 3 1); lia.
Defined.

Lemma invisible_event_is_forbidden_witness :
  respond (@view_event Demo.site (Demo.request []) 2) = Forbidden.
Proof.
  exact (proj1 (proj2 (proj2
    (@missing_not_found_invisible_forbidden Demo.site (Demo.request []) 2)))
    Demo.ev2 eq_refl eq_refl).
Defined.

(** The event 2 of the small site exists and is not visible: the answer
    is permission-denied, not not-found. *)
Lemma invisible_event_is_not_404 :
  @Event_objects Demo.site !! 2 = Some Demo.ev2
  ∧ @visible Demo.site Demo.ev2 = false
  ∧ respond (@view_event Demo.site (Demo.request []) 2) = Forbidden
  ∧ respond (@view_event Demo.site (Demo.request []) 2) ≠ NotFound.
Proof. vm_compute. repeat split. discriminate. Qed.

Lemma events_ignores_sort_form_witness :
  @events Demo.python Demo.site (Demo.request [("sort_by", "name"); ("page", "2")])
  = @events Demo.python Demo.site (Demo.request [("page", "2"); ("sort_ord", "-"); ("sort_by", "date")]).
Proof.
  apply (@events_ignores_sort_form Demo.python Demo.site).
  - repeat split; reflexivity.
  - reflexivity.
Defined.

End on_the_small_site.

(** ** The home page and the database's order *)




Section created_date_order.
Import Py Django Models Database Demo2.



End created_date_order.

Section home_database.
Import Py Django Models Views Database.
Context `{Site} `{!CreatedDateOrder}.




End home_database.

(** * The database and the small site *)

Section database_on_the_small_site.
Import Py Django Models Views MoreViews Database.



(** C3 on the code: the tag on 2 entries and 3 events is shown with the
    count 12 and listed before the tag on 7 entries, because the joined
    query counts 6 and 6 for it; by entry count plus event count (5 and
    7) the order is the other one. *)
Theorem get_tags_orders_by_join_counts :
  let site := Demo2.site_with_tags [Demo2.allomancy; Demo2.awakening] Demo2.usage_relations in
  @annotated_over_join site Demo2.usage_relations
  ∧ @get_tags site (Demo.request [("q", "a")])
    = Json {| results := [ {| id := "awakening"; text := "awakening (12)" |};
                           {| id := "allomancy"; text := "allomancy (7)" |} ] |}
  ∧ @entries_of_tag Demo2.usage_relations Demo2.awakening
    + @events_of_tag Demo2.usage_relations Demo2.awakening = 5
  ∧ @entries_of_tag Demo2.usage_relations Demo2.allomancy
    + @events_of_tag Demo2.usage_relations Demo2.allomancy = 7.
Proof.
  intros site. split; [by intros t|]. split; [vm_compute; reflexivity|].
  split; reflexivity.
Qed.

End database_on_the_small_site.

(** * Further properties *)

(** ** The list of events, page by page *)

Lemma qd_get_missing (q : Django.QueryDict) (key default : string) :
  key ∉ q.*1 → Django.qd_get q key default = default.
Proof.
  intros Hkey. unfold Django.qd_get.
  assert (filter (λ kv : string * string, kv.1 = key) q = []) as ->; [|done].
  induction q as [|[k v] q IH]; [done|].
  rewrite fmap_cons, not_elem_of_cons in Hkey. destruct Hkey as [Hne Hkey].
  rewrite filter_cons. simpl in *. case_decide; [congruence|]. by apply IH.
Qed.

Section events_pages.
Import Py Django Models Views.
Context `{Python} `{Site}.

#[local] Abbreviation listed := (fetch Event_all_visible).
#[local] Abbreviation events_paginator_of request :=
  (new_paginator listed (get_page_length request) (get_page_length request `div` 10)).
#[local] Abbreviation last_page_of request :=
  (ceil_div (Z.max 1 (count (events_paginator_of request) - get_page_length request `div` 10))
     (get_page_length request)).

Lemma page_of_text {A} (p : Paginator A) (s : string) (n : Z) :
  int s = Some n → page p (PageStr s) = page p (PageInt n).
Proof. intros Hs. unfold page, validate_number. by rewrite Hs. Qed.

Lemma last_page_pos (request : HttpRequest) :
  0 < get_page_length request → 1 ≤ last_page_of request.
Proof. intros Hlen. by apply pages_pos. Qed.

(** The page [events] serves, in every case. *)
Lemma events_serves (request : HttpRequest) :
  0 < get_page_length request →
  ∃ pg,
    page (events_paginator_of request)
      (PageInt (served_page (last_page_of request) (qd_get (GET request) "page" "1"))) = Ok pg
    ∧ number pg = served_page (last_page_of request) (qd_get (GET request) "page" "1")
    ∧ events request
      = Ok (Rendered "palanaeum/events_list.html"
              {| events_paginator := events_paginator_of request; events_page := pg |}).
Proof.
  intros Hlen.
  assert (0 ≤ get_page_length request `div` 10) as Horph by (apply Z.div_pos; lia).
  assert (Hpages : 1 ≤ last_page_of request) by (by apply pages_pos).
  assert (Hnum : num_pages (events_paginator_of request) = Ok (last_page_of request))
    by (by apply num_pages_new_paginator).
  assert (Hin : ∀ k, 1 ≤ k ≤ last_page_of request →
            ∃ pg, page (events_paginator_of request) (PageInt k) = Ok pg ∧ number pg = k)
    by (intros k Hk; by apply page_in_range).
  unfold events, served_page.
  destruct (int (qd_get (GET request) "page" "1")) as [n|] eqn:Hparse.
  - destruct (Z.ltb_spec n 1) as [Hlow|Hlow]; simpl.
    + destruct (Hin (last_page_of request)) as (pg & Hpg & Hno); [lia|].
      exists pg. split; [done|]. split; [done|].
      unfold page at 1. unfold validate_number at 1. rewrite Hparse. simpl.
      destruct (Z.ltb_spec n 1); [|lia]. simpl.
      rewrite Hnum. simpl. by rewrite Hpg.
    + destruct (Z.ltb_spec (last_page_of request) n) as [Hhigh|Hhigh].
      * destruct (Hin (last_page_of request)) as (pg & Hpg & Hno); [lia|].
        exists pg. split; [done|]. split; [done|].
        unfold page at 1. unfold validate_number at 1. rewrite Hparse. simpl.
        destruct (Z.ltb_spec n 1); [lia|].
        rewrite Hnum. simpl.
        destruct (Z.gtb_spec n (last_page_of request)); [|lia].
        destruct (Z.eqb_spec n 1); [lia|]. simpl.
        by rewrite Hpg.
      * destruct (Hin n) as (pg & Hpg & Hno); [lia|].
        exists pg. split; [done|]. split; [done|].
        rewrite (page_of_text _ _ n Hparse), Hpg. done.
  - destruct (Hin 1) as (pg & Hpg & Hno); [lia|].
    exists pg. split; [done|]. split; [done|].
    unfold page at 1. unfold validate_number at 1. rewrite Hparse. simpl.
    by rewrite Hpg.
Qed.

(** The contents of a page of the paginator of [events]. *)
Lemma events_page_contents (request : HttpRequest) (k : Z) :
  0 < get_page_length request → 1 ≤ k ≤ last_page_of request →
  page (events_paginator_of request) (PageInt k)
  = Ok {| page_object_list :=
            if k <? last_page_of request
            then take (Z.to_nat (get_page_length request))
                   (drop (Z.to_nat ((k - 1) * get_page_length request)) listed)
            else drop (Z.to_nat ((k - 1) * get_page_length request)) listed;
          number := k; paginator := events_paginator_of request |}.
Proof.
  intros Hlen Hk.
  assert (0 ≤ get_page_length request `div` 10) as Horph by (apply Z.div_pos; lia).
  destruct (Z.ltb_spec k (last_page_of request)).
  - by apply page_inner; [..|lia].
  - assert (k = last_page_of request) as -> by lia. by apply page_last.
Qed.

Lemma served_page_in_range (last : Z) (page_param : string) :
  1 ≤ last → 1 ≤ served_page last page_param ≤ last.
Proof.
  intros Hlast. unfold served_page. destruct (int page_param) as [n|]; [|lia].
  destruct (Z.ltb_spec n 1), (Z.ltb_spec last n); simpl; lia.
Qed.

Lemma served_page_default (last : Z) : 1 ≤ last → served_page last "1" = 1.
Proof.
  intros Hlast. unfold served_page.
  rewrite (int_ascii_text "1") by (reflexivity || (simpl; lia)).
  change (int_ascii "1") with (Some 1). cbv beta iota.
  destruct (Z.ltb_spec last 1); [lia|done].
Qed.

(** X1: for a positive page length [events] never fails, whatever the
    [page] parameter is: it renders one of the pages 1 to [num_pages]. *)
Theorem events_always_renders (request : HttpRequest) :
  0 < get_page_length request →
  ∃ last pg,
    num_pages (events_paginator_of request) = Ok last
    ∧ events request
      = Ok (Rendered "palanaeum/events_list.html"
              {| events_paginator := events_paginator_of request; events_page := pg |})
    ∧ 1 ≤ number pg ≤ last
    ∧ page (events_paginator_of request) (PageInt (number pg)) = Ok pg.
Proof.
  intros Hlen.
  destruct (events_serves request Hlen) as (pg & Hpg & Hno & Hev).
  exists (last_page_of request), pg.
  split; [by apply num_pages_new_paginator|]. split; [done|].
  rewrite Hno. split; [|done].
  by apply served_page_in_range, last_page_pos.
Qed.

(** X2: a [page] parameter that is a number below 1 (0, or negative) is
    answered with the last page, not the first. *)
Theorem events_page_below_one_is_last (request : HttpRequest) (n : Z) :
  0 < get_page_length request →
  int (qd_get (GET request) "page" "1") = Some n → n < 1 →
  ∃ last pg,
    num_pages (events_paginator_of request) = Ok last
    ∧ page (events_paginator_of request) (PageInt last) = Ok pg
    ∧ number pg = last
    ∧ events request
      = Ok (Rendered "palanaeum/events_list.html"
              {| events_paginator := events_paginator_of request; events_page := pg |}).
Proof.
  intros Hlen Hparse Hlow.
  destruct (events_serves request Hlen) as (pg & Hpg & Hno & Hev).
  unfold served_page in Hpg, Hno. rewrite Hparse in Hpg, Hno.
  destruct (Z.ltb_spec n 1); [|lia]. simpl in Hpg, Hno.
  exists (last_page_of request), pg.
  split; [by apply num_pages_new_paginator|]. done.
Qed.

(** X3: a [page] parameter that is a number [n] from 1 to [num_pages] is
    answered with page [n]: the [page_length] events from position
    [(n - 1) * page_length] on, and for the last page all the events
    from there on. *)
Theorem events_page_in_range (request : HttpRequest) (n : Z) :
  0 < get_page_length request →
  int (qd_get (GET request) "page" "1") = Some n →
  ∃ last,
    num_pages (events_paginator_of request) = Ok last
    ∧ (1 ≤ n ≤ last →
       events request
       = Ok (Rendered "palanaeum/events_list.html"
               {| events_paginator := events_paginator_of request;
                  events_page :=
                    {| page_object_list :=
                         if n <? last
                         then take (Z.to_nat (get_page_length request))
                                (drop (Z.to_nat ((n - 1) * get_page_length request)) listed)
                         else drop (Z.to_nat ((n - 1) * get_page_length request)) listed;
                       number := n;
                       paginator := events_paginator_of request |} |})).
Proof.
  intros Hlen Hparse. exists (last_page_of request).
  split; [by apply num_pages_new_paginator|]. intros Hn.
  destruct (events_serves request Hlen) as (pg & Hpg & Hno & Hev).
  unfold served_page in Hpg. rewrite Hparse in Hpg.
  destruct (Z.ltb_spec n 1); [lia|].
  destruct (Z.ltb_spec (last_page_of request) n); [lia|]. simpl in Hpg.
  rewrite events_page_contents in Hpg by done.
  injection Hpg as <-. exact Hev.
Qed.

(** X4: a request without a [page] parameter is answered with page 1. *)
Theorem events_without_page_parameter (request : HttpRequest) :
  0 < get_page_length request →
  "page" ∉ (GET request).*1 →
  ∃ pg,
    page (events_paginator_of request) (PageInt 1) = Ok pg
    ∧ number pg = 1
    ∧ events request
      = Ok (Rendered "palanaeum/events_list.html"
              {| events_paginator := events_paginator_of request; events_page := pg |}).
Proof.
  intros Hlen Hmissing.
  destruct (events_serves request Hlen) as (pg & Hpg & Hno & Hev).
  rewrite qd_get_missing in Hpg, Hno by done.
  pose proof (last_page_pos request Hlen) as Hlast.
  rewrite served_page_default in Hpg, Hno by done. by exists pg.
Qed.

(** X5: with a page length of 0, [events] fails with a division by zero
    for every request. *)
Theorem events_zero_page_length (request : HttpRequest) :
  get_page_length request = 0 →
  events request = Raise ZeroDivisionError.
Proof.
  intros Hzero. unfold events. rewrite Hzero.
  unfold page, validate_number, num_pages. simpl.
  rewrite !andb_false_r.
  destruct (int (qd_get (GET request) "page" "1")) as [n|]; simpl; [|done].
  by destruct (Z.ltb_spec n 1).
Qed.

(** X6: the size of the page shown.  A page before the last holds
    exactly [page_length] events; no page holds more than [page_length]
    plus the orphans allowance [page_length // 10]; a last page that is
    not the only page holds more events than the allowance; and the page
    is empty only when there is no event at all. *)
Theorem events_page_sizes (request : HttpRequest) :
  0 < get_page_length request →
  ∃ last pg,
    num_pages (events_paginator_of request) = Ok last
    ∧ events request
      = Ok (Rendered "palanaeum/events_list.html"
              {| events_paginator := events_paginator_of request; events_page := pg |})
    ∧ (number pg < last →
         Z.of_nat (length (page_object_list pg)) = get_page_length request)
    ∧ Z.of_nat (length (page_object_list pg))
        ≤ get_page_length request + get_page_length request `div` 10
    ∧ (number pg = last → 1 < last →
         get_page_length request `div` 10 < Z.of_nat (length (page_object_list pg)))
    ∧ (page_object_list pg = [] → listed = []).
Proof.
  intros Hlen.
  destruct (events_serves request Hlen) as (pg & Hpg & Hno & Hev).
  pose proof (last_page_pos request Hlen) as Hlast.
  pose proof (served_page_in_range _ (qd_get (GET request) "page" "1") Hlast) as Hrange.
  rewrite events_page_contents in Hpg by done.
  exists (last_page_of request), pg.
  split; [by apply num_pages_new_paginator|]. split; [done|].
  assert (0 ≤ get_page_length request `div` 10) as Horph by (apply Z.div_pos; lia).
  pose proof (ceil_div_bounds
    (Z.max 1 (count (events_paginator_of request) - get_page_length request `div` 10))
    (get_page_length request) Hlen) as Hb.
  rewrite Hno. clear Hno Hev.
  set (k := served_page (last_page_of request) (qd_get (GET request) "page" "1")) in *.
  clearbody k.
  set (c := count (events_paginator_of request)) in *.
  assert (Hc : c = Z.of_nat (length listed)) by done. clearbody c.
  set (orph := get_page_length request `div` 10) in *. clearbody orph.
  set (last := ceil_div (Z.max 1 (c - orph)) (get_page_length request)) in *.
  clearbody last.
  set (pl := get_page_length request) in *.
  injection Hpg as <-.
  destruct (Z.ltb_spec k last) as [Hk|Hk]; cbn [page_object_list number].
  - rewrite length_take, length_drop.
    repeat split; try nia.
    intros Hnil%(f_equal length). rewrite length_take, length_drop in Hnil. simpl in Hnil. nia.
  - assert (k = last) as -> by lia.
    rewrite length_drop.
    repeat split; try nia.
    intros Hnil%(f_equal length). rewrite length_drop in Hnil. simpl in Hnil.
    apply length_zero_iff_nil. nia.
Qed.

(** X7: when the events number at most [page_length] plus the orphans
    allowance [page_length // 10], every request is answered with one
    page that shows all of them. *)
Theorem events_single_page (request : HttpRequest) :
  0 < get_page_length request →
  Z.of_nat (length listed) ≤ get_page_length request + get_page_length request `div` 10 →
  events request
  = Ok (Rendered "palanaeum/events_list.html"
          {| events_paginator := events_paginator_of request;
             events_page := {| page_object_list := listed; number := 1;
                               paginator := events_paginator_of request |} |}).
Proof.
  intros Hlen Hfew.
  destruct (events_serves request Hlen) as (pg & Hpg & Hno & Hev).
  pose proof (last_page_pos request Hlen) as Hlast.
  pose proof (served_page_in_range _ (qd_get (GET request) "page" "1") Hlast) as Hrange.
  rewrite events_page_contents in Hpg by done.
  pose proof (ceil_div_bounds
    (Z.max 1 (count (events_paginator_of request) - get_page_length request `div` 10))
    (get_page_length request) Hlen) as Hb.
  assert (Hcount : count (events_paginator_of request) = Z.of_nat (length listed)) by done.
  assert (last_page_of request = 1) as Hone by (rewrite Hcount in *; nia).
  rewrite Hone in Hpg, Hrange.
  assert (served_page 1 (qd_get (GET request) "page" "1") = 1) as Hk by lia.
  rewrite Hk in Hpg. simpl in Hpg.
  injection Hpg as <-. by rewrite Hev.
Qed.

End events_pages.

(** ** The tag query, further *)

Lemma filter_all_true {A} (f : A → bool) (l : list A) :
  (∀ x, f x = true) → List.filter f l = l.
Proof.
  intros Hf. induction l as [|x l IH]; simpl; [done|]. by rewrite Hf, IH.
Qed.

Section tags_further.
Import Py Django Models Views.
Context `{Site}.

#[local] Abbreviation matching query :=
  (annotate (List.filter (fun t => startswith (tag_name t) query
                                   || contains (tag_name t) (" " +:+ query))
               Tag_objects)).
#[local] Abbreviation result_of :=
  (fun t => {| id := name t; text := name t +:+ " (" +:+ str (usage t) +:+ ")" |}).


(** X9: without a [q] parameter, or with an empty one, every tag of the
    table is listed, once. *)
Theorem get_tags_empty_query_lists_all (request : HttpRequest) :
  qd_get (GET request) "q" "" = "" →
  ∃ tags : list AnnotatedTag,
    get_tags request = Json {| results := map result_of tags |}
    ∧ tags ≡ₚ annotate Tag_objects
    ∧ length (map result_of tags) = length Tag_objects.
Proof.
  intros Hq. eexists. split; [reflexivity|]. rewrite Hq.
  rewrite filter_all_true by (intros t; by destruct (tag_name t)).
  split; [apply sorted_perm|].
  rewrite length_map, sorted_length. unfold annotate. by rewrite length_map.
Qed.

End tags_further.

(** ** Single events and entries, further *)

Section single_objects_further.
Import Py Django Models Views MoreViews.
Context `{Site}.

(** X10: the page of a visible event shows the prefetched entries of the
    event in ascending [order]; entries with the same [order] keep the
    order in which they were prefetched. The review message follows the
    review state. *)
Theorem view_event_entries_in_order (request : HttpRequest) (pk : Z) (ev : Event) :
  Event_objects !! pk = Some ev → visible ev = true →
  let prefetched :=
    prefetch_entries
      (entry_pk <$> fetch (qs_filter Entry_all_visible
                             (fun e => bool_decide (event_id e = event_pk ev))))
      (is_contributor request) in
  ∃ ctx,
    view_event request pk = Ok (Rendered "palanaeum/event.html" ctx)
    ∧ ctx_event ctx = ev
    ∧ ctx_entries ctx ≡ₚ prefetched
    ∧ StronglySorted (fun a b => order a ≤ order b) (ctx_entries ctx)
    ∧ (∀ k, filter (fun e => order e = k) (ctx_entries ctx)
            = filter (fun e => order e = k) prefetched)
    ∧ review_message ctx
      = match review_state ev with
        | REVIEW_APPROVED => get_config "review_reviewed_explanation"
        | REVIEW_PENDING => get_config "review_pending_explanation"
        | REVIEW_OTHER => ""
        end.
Proof.
  intros Hev Hvis prefetched. unfold view_event, get_object_or_404.
  rewrite Hev. simpl. rewrite Hvis. simpl.
  eexists. split; [reflexivity|]. simpl. split; [done|].
  split; [apply sorted_perm|].
  split; [apply (sorted_StronglySorted order false)|].
  split; [intros k; apply sorted_stable|].
  by destruct (review_state ev).
Qed.

(** X11: [event_no_slug] answers not-found exactly when the event does
    not exist, as [view_event] does.  For an event that exists it
    redirects to the event's page without consulting the visibility; the
    page then refuses an invisible event and renders a visible one. *)
Theorem event_no_slug_then_view_event (request : HttpRequest) (pk : Z) :
  match Event_objects !! pk with
  | None =>
      respond (event_no_slug request pk) = NotFound
      ∧ respond (view_event request pk) = NotFound
  | Some ev =>
      respond (event_no_slug request pk)
        = Redirect (reverse "view_event" pk (slugify (event_name ev)))
      ∧ (visible ev = false → respond (view_event request pk) = Forbidden)
      ∧ (visible ev = true →
           ∃ ctx, respond (view_event request pk) = Rendered "palanaeum/event.html" ctx
                  ∧ ctx_event ctx = ev)
  end.
Proof.
  unfold event_no_slug, view_event, get_object_or_404.
  destruct (Event_objects !! pk) as [ev|]; simpl; [|done].
  split; [done|]. split.
  - by intros ->.
  - intros ->. simpl. by eexists.
Qed.

(** X12: when [view_entry] redirects, the entry exists, the address is
    the page of its event with the anchor of the entry, and that event
    exists: following the redirect is never answered with not-found. *)
Theorem view_entry_redirect_target_exists (request : HttpRequest) (pk : Z) (url : string) :
  respond (view_entry request pk) = Redirect url →
  ∃ en ev,
    Entry_objects !! pk = Some en
    ∧ Event_objects !! event_id en = Some ev
    ∧ url = reverse "view_event" (event_id en) (slugify (event_name ev))
            +:+ "#e" +:+ str (entry_pk en)
    ∧ respond (view_event request (event_id en)) ≠ NotFound.
Proof.
  unfold view_entry, get_object_or_404, entry_event.
  destruct (Entry_objects !! pk) as [en|] eqn:Hen; simpl; [|done].
  destruct (Event_objects !! event_id en) as [ev|] eqn:Hev; simpl; [|done].
  intros [= <-]. exists en, ev. repeat split; try done.
  unfold view_event, get_object_or_404. rewrite Hev. simpl.
  by destruct (visible ev).
Qed.

End single_objects_further.

(** ** The advanced search, further *)

Section advanced_search_further.
Import Py Django Models Search Views.
Context `{Site} `{SearchBackend}.

(** What [adv_search] answers when a filter is active. *)
Lemma adv_search_active (request : HttpRequest) (clock : Clock) :
  any filter_bool (init_filters request) = true →
  adv_search request clock
  = let found := paginate_search_results request
                   (get_search_results (execute_filters (init_filters request))
                      (qd_get (GET request) "ordering" "rank")) in
    (Rendered "palanaeum/search/adv_search_results.html"
       {| search_paginator := Some found.1.2; search_entries := found.1.1;
          search_filters := init_filters request; search_done := true;
          search_query := qd_get (GET request) "query" "";
          search_params :=
            join "&" (collect_params
                        [urlencode [("ordering", qd_get (GET request) "ordering" "rank")]]
                        (init_filters request));
          search_page := Some found.2;
          search_time := now clock (S (ticks clock)) - now clock (ticks clock);
          search_ordering := qd_get (GET request) "ordering" "rank" |},
     {| now := now clock; ticks := S (S (ticks clock)) |}).
Proof.
  intros Hany. unfold adv_search. rewrite Hany. simpl.
  by destruct (paginate_search_results _ _) as [[entries paginator] page].
Qed.

(** What [adv_search] answers when no filter is active. *)
Lemma adv_search_inactive (request : HttpRequest) (clock : Clock) :
  any filter_bool (init_filters request) = false →
  adv_search request clock
  = (Rendered "palanaeum/search/adv_search_results.html"
       {| search_paginator := None; search_entries := [];
          search_filters := init_filters request; search_done := false;
          search_query := qd_get (GET request) "query" "";
          search_params :=
            join "&" (collect_params
                        [urlencode [("ordering", qd_get (GET request) "ordering" "rank")]]
                        (init_filters request));
          search_page := None; search_time := 0;
          search_ordering := qd_get (GET request) "ordering" "rank" |},
     clock).
Proof. intros Hany. unfold adv_search. by rewrite Hany. Qed.

(** X13: when some filter is active the search is run: the context has
    the entries, the paginator and the page of the paginated results,
    [search_done] is set, the clock is read exactly twice and the search
    time is the difference of the two readings. *)
Theorem adv_search_with_active_filter (request : HttpRequest) (clock : Clock) :
  List.filter filter_bool (init_filters request) ≠ [] →
  ∃ ctx paginator page,
    adv_search request clock
      = (Rendered "palanaeum/search/adv_search_results.html" ctx,
         {| now := now clock; ticks := S (S (ticks clock)) |})
    ∧ search_done ctx = true
    ∧ search_paginator ctx = Some paginator
    ∧ search_page ctx = Some page
    ∧ paginate_search_results request
        (get_search_results (execute_filters (init_filters request))
           (qd_get (GET request) "ordering" "rank"))
      = (search_entries ctx, paginator, page)
    ∧ search_time ctx = now clock (S (ticks clock)) - now clock (ticks clock).
Proof.
  intros Hactive.
  assert (any filter_bool (init_filters request) = true) as Hany.
  { destruct (any filter_bool (init_filters request)) eqn:Hany; [done|].
    by apply any_false_iff in Hany. }
  rewrite (adv_search_active _ _ Hany). simpl.
  eexists _, _, _. split; [reflexivity|]. simpl.
  repeat split. by destruct (paginate_search_results _ _) as [[? ?] ?].
Qed.


(** X15: with no active filter the echoed search parameters are the
    ordering parameter alone, with no separator; and a request without
    an [ordering] parameter is ordered by [rank]. *)
Theorem adv_search_params_without_filters (request : HttpRequest) (clock : Clock) :
  List.filter filter_bool (init_filters request) = [] →
  ∃ ctx,
    (adv_search request clock).1
      = Rendered "palanaeum/search/adv_search_results.html" ctx
    ∧ search_params ctx
      = quote_plus "ordering" +:+ "=" +:+ quote_plus (search_ordering ctx)
    ∧ ("ordering" ∉ (GET request).*1 → search_ordering ctx = "rank").
Proof.
  intros Hnone. pose proof Hnone as Hany%any_false_iff.
  rewrite (adv_search_inactive _ _ Hany). simpl.
  eexists. split; [reflexivity|]. simpl.
  rewrite collect_params_spec, Hnone. simpl.
  split; [done|]. intros Hmissing. by apply qd_get_missing.
Qed.

End advanced_search_further.

(** ** The home page, further *)

Lemma filter_take_prefix {A} (P : A → Prop) `{!∀ x, Decision (P x)} (n : nat) (l : list A) :
  filter P (take n l) `prefix_of` filter P l.
Proof.
  exists (filter P (drop n l)). by rewrite <-filter_app, take_drop.
Qed.

Section home_further.
Import Py Django Models Views.
Context `{Site}.

(** X16: sources with the same date, and the sources without a date
    among themselves, appear with the audio sources first and, within a
    kind, in the order of the query. *)
Theorem index_new_sources_ties (request : HttpRequest) (k : datetime) :
  let audio := fetch (qs_upto (order_by AudioSource_all_visible ["-created_date"]) 5) in
  let image := fetch (qs_upto (order_by ImageSource_all_visible ["-created_date"]) 5) in
  ∃ ctx, index request = Rendered "palanaeum/index.html" ctx
    ∧ filter (fun s => source_sort_key s = k) (new_sources ctx)
        `prefix_of` filter (fun s => source_sort_key s = k) audio
                    ++ filter (fun s => source_sort_key s = k) image.
Proof.
  intros audio image. eexists. split; [reflexivity|]. simpl.
  fold audio image. rewrite slice_prefix by lia.
  rewrite <-filter_app, <-(sorted_stable source_sort_key true k (audio ++ image)).
  apply filter_take_prefix.
Qed.

End home_further.

(** ** The list of tags *)

Section grouping.
Import Py MoreViews.
Context {A : Type} (count : A → Z).

Lemma dd_append_keys (d : list (Z * list A)) (k : Z) (v : A) :
  (dd_append d k v).*1 = if decide (k ∈ d.*1) then d.*1 else d.*1 ++ [k].
Proof.
  induction d as [|[k' vs] d IH].
  { cbn [dd_append fmap list_fmap fst]. case_decide as Hin; [|done].
    by apply elem_of_nil in Hin. }
  cbn [dd_append]. destruct (Z.eqb_spec k k') as [->|Hne].
  - rewrite decide_True; [done|]. rewrite fmap_cons. apply list_elem_of_here.
  - rewrite !fmap_cons, IH. cbn [fst].
    destruct (decide (k ∈ d.*1)) as [Hin|Hout].
    + by rewrite decide_True by (by apply list_elem_of_further).
    + rewrite decide_False; [done|]. rewrite not_elem_of_cons. done.
Qed.

Lemma dd_append_NoDup (d : list (Z * list A)) (k : Z) (v : A) :
  NoDup d.*1 → NoDup (dd_append d k v).*1.
Proof.
  intros Hd. rewrite dd_append_keys. case_decide; [done|].
  apply NoDup_app. split; [done|]. split; [|apply NoDup_singleton].
  intros x Hx ->%list_elem_of_singleton. done.
Qed.

Lemma dd_append_concat (d : list (Z * list A)) (k : Z) (v : A) :
  concat (dd_append d k v).*2 ≡ₚ v :: concat d.*2.
Proof.
  induction d as [|[k' vs] d IH]; simpl; [done|].
  destruct (Z.eqb_spec k k'); simpl.
  - rewrite <-app_assoc. simpl. symmetry. apply Permutation_middle.
  - rewrite IH. symmetry. apply Permutation_middle.
Qed.

(** Where an item of the dictionary comes from after [d[k0].append(v)]. *)
Lemma elem_of_dd_append (d : list (Z * list A)) (k0 : Z) (v : A) (k : Z) (g : list A) :
  NoDup d.*1 →
  (k, g) ∈ dd_append d k0 v →
  (k ≠ k0 ∧ (k, g) ∈ d)
  ∨ (k = k0 ∧ ∃ g0, g = g0 ++ [v] ∧ ((k0, g0) ∈ d ∨ (g0 = [] ∧ k0 ∉ d.*1))).
Proof.
  induction d as [|[k' vs] d IH]; simpl; intros Hd Hin.
  { apply list_elem_of_singleton in Hin as [= -> ->]. right. split; [done|].
    exists []. split; [done|]. right. split; [done|]. apply not_elem_of_nil. }
  apply NoDup_cons in Hd as [Hk' Hd].
  destruct (Z.eqb_spec k0 k') as [->|Hne].
  - apply elem_of_cons in Hin as [[= -> ->]|Hin].
    + right. split; [done|]. exists vs. split; [done|]. left. apply list_elem_of_here.
    + left. split; [|by apply list_elem_of_further].
      intros ->. apply Hk'. apply list_elem_of_fmap. by exists (k', g).
  - apply elem_of_cons in Hin as [[= -> ->]|Hin].
    + left. split; [done|]. apply list_elem_of_here.
    + destruct (IH Hd Hin) as [[Hk Hg]|[-> (g0 & -> & Hg0)]].
      * left. split; [done|]. by apply list_elem_of_further.
      * right. split; [done|]. exists g0. split; [done|].
        destruct Hg0 as [Hg0|[-> Hout]].
        -- left. by apply list_elem_of_further.
        -- right. split; [done|]. rewrite not_elem_of_cons. done.
Qed.

Lemma filter_count_nil (tags : list A) (k : Z) :
  (∀ a, a ∈ tags → count a ≠ k) → filter (fun a => count a = k) tags = [].
Proof.
  intros Hk. induction tags as [|a tags IH]; [done|].
  rewrite filter_cons, decide_False by (apply Hk, list_elem_of_here).
  apply IH. intros b Hb. apply Hk. by apply list_elem_of_further.
Qed.

Lemma grouped_step (tags : list A) (d : list (Z * list A)) (v : A) :
  grouped count tags d → grouped count (tags ++ [v]) (dd_append d (count v) v).
Proof.
  intros (Hnodup & Hperm & Hcover & Hsound). split; [by apply dd_append_NoDup|].
  split; [by rewrite dd_append_concat, Hperm, <-Permutation_cons_append|].
  split.
  - intros a Ha. rewrite dd_append_keys.
    apply elem_of_app in Ha as [Ha | ->%list_elem_of_singleton].
    + apply Hcover in Ha. case_decide; [done|]. apply elem_of_app. by left.
    + case_decide; [done|]. apply elem_of_app. right. apply list_elem_of_here.
  - intros k g Hin. rewrite filter_app.
    apply elem_of_dd_append in Hin as [[Hne Hin]|[-> (g0 & -> & Hg0)]]; [| |done].
    + apply Hsound in Hin as [Hg ->]. split; [done|].
      rewrite filter_cons, decide_False by done. by rewrite filter_nil, app_nil_r.
    + split; [by destruct g0|].
      rewrite filter_cons, decide_True by done. rewrite filter_nil. f_equal.
      destruct Hg0 as [Hg0|[-> Hout]].
      * by apply Hsound in Hg0 as [_ <-].
      * symmetry. apply filter_count_nil. intros a Ha Heq.
        apply Hout. rewrite <-Heq. by apply Hcover.
Qed.

Lemma grouped_group_by_count (tags : list A) :
  grouped count tags (group_by_count count tags).
Proof.
  unfold group_by_count.
  assert (∀ done d, grouped count done d →
            grouped count (done ++ tags) (fold_left (fun d tag => dd_append d (count tag) tag) tags d))
    as Hloop.
  { induction tags as [|v tags IH]; intros done d Hd; simpl.
    - by rewrite app_nil_r.
    - rewrite (assoc_L (++) done [v] tags : done ++ v :: tags = (done ++ [v]) ++ tags).
      by apply IH, grouped_step. }
  apply (Hloop [] []). split; [constructor|]. split; [done|].
  split; [by intros a ?%elem_of_nil|by intros k g ?%elem_of_nil].
Qed.

Lemma strictly_sorted_of_NoDup (l : list (Z * list A)) :
  StronglySorted (fun a b => b.1 ≤ a.1) l → NoDup l.*1 →
  StronglySorted (fun a b => b.1 < a.1) l.
Proof.
  induction 1 as [|x l Hl IH Hx]; intros Hnodup; [constructor|].
  rewrite fmap_cons in Hnodup. apply NoDup_cons in Hnodup as [Hnotin Hnodup].
  constructor; [by apply IH|].
  apply Forall_forall. intros y Hy. rewrite Forall_forall in Hx.
  assert (y.1 ≠ x.1); [|specialize (Hx y Hy); simpl in *; lia].
  intros Heq. apply Hnotin. rewrite <-Heq. apply list_elem_of_fmap. by exists y.
Qed.

(** The items [tags_list] shows for one of its two groupings. *)
Lemma sorted_items_group_by_count (tags : list A) :
  let items := sorted_items (group_by_count count tags) in
  StronglySorted (fun a b => b.1 < a.1) items
  ∧ concat items.*2 ≡ₚ tags
  ∧ (∀ k g, (k, g) ∈ items ↔ g ≠ [] ∧ g = filter (fun a => count a = k) tags).
Proof.
  intros items.
  destruct (grouped_group_by_count tags) as (Hnodup & Hperm & Hcover & Hsound).
  assert (Hitems : items ≡ₚ group_by_count count tags) by apply sorted_perm.
  split; [|split].
  - apply strictly_sorted_of_NoDup; [|by rewrite Hitems].
    apply (sorted_StronglySorted (fun item : Z * list A => item.1) true).
  - by rewrite Hitems.
  - intros k g. rewrite Hitems. split; [by apply Hsound|].
    intros [Hne ->].
    destruct (filter (fun a => count a = k) tags) as [|a g'] eqn:Hg; [done|].
    assert (a ∈ filter (fun a => count a = k) tags) as [Hk Ha]%list_elem_of_filter
      by (rewrite Hg; apply list_elem_of_here).
    apply Hcover in Ha. rewrite Hk in Ha.
    apply list_elem_of_fmap in Ha as ([k' g''] & -> & Hin). simpl.
    pose proof Hin as [_ ->]%Hsound. simpl in Hg. by rewrite Hg in Hin.
Qed.

End grouping.

Section tags_list_facts.
Import Py Django Models Views MoreViews.
Context `{Site} `{TagRelations}.

(** X17: both lists of [tags_list] are in strictly decreasing order of
    the count: no count appears twice. *)
Theorem tags_list_strictly_decreasing (request : HttpRequest) :
  ∃ ctx,
    tags_list request = Rendered "palanaeum/tags_list.html" ctx
    ∧ StronglySorted (fun a b => b.1 < a.1) (entry_tags ctx)
    ∧ StronglySorted (fun a b => b.1 < a.1) (event_tags ctx).
Proof.
  eexists. split; [reflexivity|]. simpl. split.
  - apply (sorted_items_group_by_count entries_of_tag tags_with_entries).
  - apply (sorted_items_group_by_count events_of_tag tags_with_events).
Qed.

(** X18: the group listed under a count is exactly the tags with that
    many entries (or events), in the order of the tag table, and only
    counts that some tag has are listed. *)
Theorem tags_list_groups (request : HttpRequest) :
  ∃ ctx,
    tags_list request = Rendered "palanaeum/tags_list.html" ctx
    ∧ (∀ k g, (k, g) ∈ entry_tags ctx
              ↔ g ≠ [] ∧ g = filter (fun t => entries_of_tag t = k) tags_with_entries)
    ∧ (∀ k g, (k, g) ∈ event_tags ctx
              ↔ g ≠ [] ∧ g = filter (fun t => events_of_tag t = k) tags_with_events).
Proof.
  eexists. split; [reflexivity|]. simpl. split.
  - apply (sorted_items_group_by_count entries_of_tag tags_with_entries).
  - apply (sorted_items_group_by_count events_of_tag tags_with_events).
Qed.

Lemma tags_with_entries_spec (t : Tag) :
  t ∈ tags_with_entries ↔ t ∈ Tag_objects ∧ tag_entries t ≠ [].
Proof.
  unfold tags_with_entries. rewrite list_elem_of_In, filter_In, <-list_elem_of_In.
  rewrite negb_true_iff, bool_decide_eq_false. tauto.
Qed.

Lemma tags_with_events_spec (t : Tag) :
  t ∈ tags_with_events ↔ t ∈ Tag_objects ∧ tag_events t ≠ [].
Proof.
  unfold tags_with_events. rewrite list_elem_of_In, filter_In, <-list_elem_of_In.
  rewrite negb_true_iff, bool_decide_eq_false. tauto.
Qed.

(** X19: [tags_list] lists every tag that has an entry exactly once
    among the entry groups, and every tag that has an event exactly once
    among the event groups; a tag without entries (events) is not listed
    there, and no group has the count 0. *)
Theorem tags_list_partition (request : HttpRequest) :
  ∃ ctx,
    tags_list request = Rendered "palanaeum/tags_list.html" ctx
    ∧ concat (entry_tags ctx).*2 ≡ₚ tags_with_entries
    ∧ concat (event_tags ctx).*2 ≡ₚ tags_with_events
    ∧ (∀ t, t ∈ concat (entry_tags ctx).*2 ↔ t ∈ Tag_objects ∧ tag_entries t ≠ [])
    ∧ (∀ t, t ∈ concat (event_tags ctx).*2 ↔ t ∈ Tag_objects ∧ tag_events t ≠ [])
    ∧ (∀ k g, (k, g) ∈ entry_tags ctx ∨ (k, g) ∈ event_tags ctx → 1 ≤ k).
Proof.
  eexists. split; [reflexivity|]. simpl.
  destruct (sorted_items_group_by_count entries_of_tag tags_with_entries)
    as (_ & Hperm1 & Hgroups1).
  destruct (sorted_items_group_by_count events_of_tag tags_with_events)
    as (_ & Hperm2 & Hgroups2).
  split; [done|]. split; [done|].
  split; [intros t; by rewrite Hperm1, tags_with_entries_spec|].
  split; [intros t; by rewrite Hperm2, tags_with_events_spec|].
  intros k g [[Hne ->]%Hgroups1|[Hne ->]%Hgroups2].
  - destruct (filter _ tags_with_entries) as [|t g] eqn:Hg; [done|].
    assert (t ∈ filter (fun t => entries_of_tag t = k) tags_with_entries)
      as [Hk [_ Ht]%tags_with_entries_spec]%list_elem_of_filter
      by (rewrite Hg; apply list_elem_of_here).
    unfold entries_of_tag in Hk. destruct (tag_entries t); [done|]. simpl in Hk. lia.
  - destruct (filter _ tags_with_events) as [|t g] eqn:Hg; [done|].
    assert (t ∈ filter (fun t => events_of_tag t = k) tags_with_events)
      as [Hk [_ Ht]%tags_with_events_spec]%list_elem_of_filter
      by (rewrite Hg; apply list_elem_of_here).
    unfold events_of_tag in Hk. destruct (tag_events t); [done|]. simpl in Hk. lia.
Qed.

End tags_list_facts.

(** * The further properties on the small site *)

Section further_on_the_small_site.
Import Py Django Models Search Views SpecSearch MoreViews.
#[local] Existing Instance Demo.python.

#[local] Abbreviation demo_backend := (@SpecSearch.backend Demo.python Demo.site Demo.config).
#[local] Abbreviation demo_search := (@adv_search Demo.site demo_backend).
#[local] Abbreviation demo_paginator :=
  (new_paginator [Demo.ev1; Demo.ev3; Demo.ev4; Demo.ev5] 2 0).

Lemma events_always_renders_witness :
  ∃ last pg,
    num_pages demo_paginator = Ok last
    ∧ @events Demo.python Demo.site (Demo.request [("page", "7")])
      = Ok (Rendered "palanaeum/events_list.html"
              {| events_paginator := demo_paginator; events_page := pg |})
    ∧ 1 ≤ number pg ≤ last
    ∧ page demo_paginator (PageInt (number pg)) = Ok pg.
Proof.
  apply (@events_always_renders Demo.python Demo.site (Demo.request [("page", "7")])).
  reflexivity.
Defined.

Lemma events_page_below_one_is_last_witness :
  ∃ last pg,
    num_pages demo_paginator = Ok last
    ∧ page demo_paginator (PageInt last) = Ok pg
    ∧ number pg = last
    ∧ @events Demo.python Demo.site (Demo.request [("page", "0")])
      = Ok (Rendered "palanaeum/events_list.html"
              {| events_paginator := demo_paginator; events_page := pg |}).
Proof.
  apply (@events_page_below_one_is_last Demo.python Demo.site (Demo.request [("page", "0")]) 0).
  - reflexivity.
  - reflexivity.
  - lia.
Defined.

Lemma events_page_in_range_witness :
  @events Demo.python Demo.site (Demo.request [("page", "2")])
  = Ok (Rendered "palanaeum/events_list.html"
          {| events_paginator := demo_paginator;
             events_page := {| page_object_list := [Demo.ev4; Demo.ev5]; number := 2;
                               paginator := demo_paginator |} |}).
Proof.
  destruct (@events_page_in_range Demo.python Demo.site (Demo.request [("page", "2")]) 2
              ltac:(reflexivity) ltac:(reflexivity)) as (last & Hnum & Hpage).
  change (num_pages _) with (Ok (A := Z) 2) in Hnum. injection Hnum as <-.
  apply Hpage. lia.
Defined.

Lemma events_without_page_parameter_witness :
  ∃ pg,
    page demo_paginator (PageInt 1) = Ok pg
    ∧ number pg = 1
    ∧ @events Demo.python Demo.site (Demo.request [("sort_by", "name")])
      = Ok (Rendered "palanaeum/events_list.html"
              {| events_paginator := demo_paginator; events_page := pg |}).
Proof.
  apply (@events_without_page_parameter Demo.python Demo.site (Demo.request [("sort_by", "name")])).
  - reflexivity.
  - simpl. intros [[=]|[]%elem_of_nil]%elem_of_cons.
Defined.

Lemma events_zero_page_length_witness :
  @events Demo.python (Demo2.site_with_page_length 0) (Demo.request [("page", "1")])
  = Raise ZeroDivisionError.
Proof.
  apply (@events_zero_page_length Demo.python (Demo2.site_with_page_length 0)). reflexivity.
Defined.

Lemma events_page_sizes_witness :
  ∃ last pg,
    num_pages demo_paginator = Ok last
    ∧ @events Demo.python Demo.site (Demo.request [("page", "1")])
      = Ok (Rendered "palanaeum/events_list.html"
              {| events_paginator := demo_paginator; events_page := pg |})
    ∧ (number pg < last → Z.of_nat (length (page_object_list pg)) = 2)
    ∧ Z.of_nat (length (page_object_list pg)) ≤ 2 + 2 `div` 10
    ∧ (number pg = last → 1 < last → 2 `div` 10 < Z.of_nat (length (page_object_list pg)))
    ∧ (page_object_list pg = [] → [Demo.ev1; Demo.ev3; Demo.ev4; Demo.ev5] = []).
Proof.
  apply (@events_page_sizes Demo.python Demo.site (Demo.request [("page", "1")])). reflexivity.
Defined.

Lemma events_single_page_witness :
  let paginator := new_paginator [Demo.ev1; Demo.ev3; Demo.ev4; Demo.ev5] 10 1 in
  @events Demo.python (Demo2.site_with_page_length 10) (Demo.request [("page", "3")])
  = Ok (Rendered "palanaeum/events_list.html"
          {| events_paginator := paginator;
             events_page := {| page_object_list := [Demo.ev1; Demo.ev3; Demo.ev4; Demo.ev5];
                               number := 1; paginator := paginator |} |}).
Proof.
  apply (@events_single_page Demo.python (Demo2.site_with_page_length 10)
           (Demo.request [("page", "3")])).
  - reflexivity.
  - vm_compute. discriminate.
Defined.

Lemma get_tags_empty_query_lists_all_witness :
  ∃ tags : list AnnotatedTag,
    @get_tags Demo.site (Demo.request [("page", "1")])
      = Json {| results :=
                  map (fun t => {| id := name t;
                                   text := name t +:+ " (" +:+ str (usage t) +:+ ")" |}) tags |}
    ∧ tags ≡ₚ @annotate Demo.site (@Tag_objects Demo.site)
    ∧ length (map (fun t => {| id := name t;
                               text := name t +:+ " (" +:+ str (usage t) +:+ ")" |}) tags)
      = 4%nat.
Proof.
  apply (@get_tags_empty_query_lists_all Demo.site (Demo.request [("page", "1")])).
  reflexivity.
Defined.

Lemma view_event_entries_in_order_witness :
  ∃ ctx,
    @view_event Demo.site (Demo.request []) 1 = Ok (Rendered "palanaeum/event.html" ctx)
    ∧ ctx_event ctx = Demo.ev1
    ∧ ctx_entries ctx ≡ₚ [Demo.en10; Demo.en11]
    ∧ StronglySorted (fun a b => order a ≤ order b) (ctx_entries ctx)
    ∧ (∀ k, filter (fun e => order e = k) (ctx_entries ctx)
            = filter (fun e => order e = k) [Demo.en10; Demo.en11])
    ∧ review_message ctx = "review_reviewed_explanation".
Proof.
  apply (@view_event_entries_in_order Demo.site (Demo.request []) 1 Demo.ev1);
    reflexivity.
Defined.

Lemma view_entry_redirect_target_exists_witness :
  ∃ en ev,
    @Entry_objects Demo.site !! 12 = Some en
    ∧ @Event_objects Demo.site !! event_id en = Some ev
    ∧ "/view_event/3/Signing/#e12"
      = @reverse Demo.site "view_event" (event_id en) (@slugify Demo.site (event_name ev))
        +:+ "#e" +:+ str (entry_pk en)
    ∧ respond (@view_event Demo.site (Demo.request []) (event_id en)) ≠ NotFound.
Proof.
  apply (@view_entry_redirect_target_exists Demo.site (Demo.request []) 12).
  vm_compute. reflexivity.
Defined.

Lemma adv_search_with_active_filter_witness :
  let request := Demo.request [("event", "1")] in
  ∃ ctx paginator page,
    demo_search request Demo.clock
      = (Rendered "palanaeum/search/adv_search_results.html" ctx,
         {| now := now Demo.clock; ticks := 2 |})
    ∧ search_done ctx = true
    ∧ search_paginator ctx = Some paginator
    ∧ search_page ctx = Some page
    ∧ @paginate Demo.python Demo.site request
        (@order_results Demo.config
           (@evaluate Demo.site (@build_filters Demo.config (GET request))) "rank")
      = (search_entries ctx, paginator, page)
    ∧ search_time ctx = now Demo.clock 1 - now Demo.clock 0.
Proof.
  intros request.
  apply (@adv_search_with_active_filter Demo.site demo_backend request Demo.clock).
  vm_compute. discriminate.
Defined.

Lemma adv_search_params_without_filters_witness :
  ∃ ctx,
    (demo_search (Demo.request [("query", "storm")]) Demo.clock).1
      = Rendered "palanaeum/search/adv_search_results.html" ctx
    ∧ search_params ctx = "ordering" +:+ "=" +:+ search_ordering ctx
    ∧ ("ordering" ∉ [("query", "storm")].*1 → search_ordering ctx = "rank").
Proof.
  apply (@adv_search_params_without_filters Demo.site demo_backend
           (Demo.request [("query", "storm")]) Demo.clock).
  reflexivity.
Defined.

End further_on_the_small_site.

(** * Runs of the model *)

Section runs.
Import Py Django Models Search Views SpecSearch MoreViews.
#[local] Existing Instance Demo.python.

Example int_42 : int_ascii " +4_2 " = Some 42. Proof. reflexivity. Qed.
Example int_bad : int_ascii "4__2" = None. Proof. reflexivity. Qed.
Example int_neg : int_ascii "-07" = Some (-7). Proof. reflexivity. Qed.
Example int_float : int_ascii "1.5" = None. Proof. reflexivity. Qed.
Example int_vertical_tab : int_ascii (String (ascii_of_nat 11) "2") = Some 2.
Proof. reflexivity. Qed.
Example int_file_separator : int_ascii (String (ascii_of_nat 28) "2") = None.
Proof. reflexivity. Qed.
Example events_page_unit_separator :
  Demo.shown_events [("page", String (ascii_of_nat 31) "5")] = Some (1, [1; 3]).
Proof. reflexivity. Qed.
Example str_120 : str 120 = "120". Proof. reflexivity. Qed.
Example slice_ex : slice [1;2;3;4;5] 1 (-1) = [2;3;4]. Proof. reflexivity. Qed.
Example sorted_ex : sorted (fun p : Z * Z => p.1) true [(1,0);(3,1);(1,2);(3,3)]
  = [(3,1);(3,3);(1,0);(1,2)]. Proof. reflexivity. Qed.
Example page_with_orphans :
  page_object_list <$>
    (match page (new_paginator [1;2;3;4;5;6;7] 3 1) (PageStr "2") with
     | Ok p => Some p
     | Raise _ => None
     end) = Some [4;5;6;7].
Proof. reflexivity. Qed.

Example events_default : Demo.shown_events [] = Some (1, [1; 3]).
Proof. reflexivity. Qed.
Example events_page_2 : Demo.shown_events [("page", "2")] = Some (2, [4; 5]).
Proof. reflexivity. Qed.
Example events_page_text : Demo.shown_events [("page", "two")] = Some (1, [1; 3]).
Proof. reflexivity. Qed.
Example events_page_far : Demo.shown_events [("page", "99")] = Some (2, [4; 5]).
Proof. reflexivity. Qed.
Example events_page_zero : Demo.shown_events [("page", "0")] = Some (2, [4; 5]).
Proof. reflexivity. Qed.
Example events_sorted_by_name :
  Demo.shown_events [("sort_by", "name"); ("sort_ord", "")] = Some (1, [1; 3]).
Proof. reflexivity. Qed.

Example order_by_reorders :
  let run := @fetch Event (@Event_ordering Demo.site) in
  event_pk <$> run (order_by (@Event_all_visible Demo.site) ["-date"; "name"]) = [5; 4; 3; 1]
  ∧ event_pk <$> run (@Event_all_visible Demo.site) = [1; 3; 4; 5].
Proof. split; reflexivity. Qed.

Example undated_source_after_dated :
  sorted (@source_sort_key Demo.site) true
    [Demo.audio 2 None; Demo.image 1 (Some 200); Demo.image 3 None; Demo.audio 1 (Some 100)]
  = [Demo.image 1 (Some 200); Demo.audio 1 (Some 100); Demo.audio 2 None; Demo.image 3 None].
Proof. reflexivity. Qed.

Example tags_for_co :
  @get_tags Demo.site (Demo.request [("q", "co")])
  = Json {| results := [ {| id := "the cosmere"; text := "the cosmere (12)" |};
                         {| id := "cognitive"; text := "cognitive (10)" |};
                         {| id := "cosmere"; text := "cosmere (8)" |} ] |}.
Proof. reflexivity. Qed.

Example new_sources_on_index :
  match @index Demo.site (Demo.request []) with
  | Rendered _ ctx => (fun s => (source_kind s, source_pk s)) <$> new_sources ctx
  | _ => []
  end
  = [(ImageSource, 2); (AudioSource, 3); (ImageSource, 1); (AudioSource, 1); (ImageSource, 4)].
Proof. vm_compute. reflexivity. Qed.

Example search_by_event :
  match (@adv_search Demo.site (@SpecSearch.backend Demo.python Demo.site Demo.config)
           (Demo.request [("event", "1"); ("min_order", "")]) Demo.clock).1 with
  | Rendered _ ctx => Some (search_params ctx, entry_pk <$> search_entries ctx, search_time ctx)
  | _ => None
  end
  = Some ("ordering=rank&event=1", [10; 11], 7).
Proof. vm_compute. reflexivity. Qed.

Example view_entry_redirects :
  respond (@view_entry Demo.site (Demo.request []) 12)
  = Redirect "/view_event/3/Signing/#e12".
Proof. vm_compute. reflexivity. Qed.

Example view_entry_missing :
  respond (@view_entry Demo.site (Demo.request []) 13) = NotFound.
Proof. vm_compute. reflexivity. Qed.

Example tags_list_on_the_small_site :
  match @tags_list Demo.site Demo2.relations (Demo.request []) with
  | Rendered _ ctx =>
      Some ((fun item : Z * list Tag => (item.1, tag_name <$> item.2)) <$> entry_tags ctx,
            (fun item : Z * list Tag => (item.1, tag_name <$> item.2)) <$> event_tags ctx)
  | _ => None
  end
  = Some ([(2, ["cosmere"; "cognitive"]); (1, ["roshar"])],
          [(3, ["the cosmere"]); (1, ["roshar"])]).
Proof. vm_compute. reflexivity. Qed.

Example event_no_slug_redirects_hidden_event :
  respond (@event_no_slug Demo.site (Demo.request []) 2) = Redirect "/view_event/2/Hidden/"
  ∧ respond (@event_no_slug Demo.site (Demo.request []) 9) = NotFound.
Proof. vm_compute. split; reflexivity. Qed.

End runs.
